(** * fakestorage: the gRPC front of the storage emulator

    A shallow embedding of [fakestorage/grpc_server.go]: the three RPC
    handlers [ListBuckets], [ListObjects] and [WriteObject] of
    [StorageServer], the pieces of the Go runtime they call ([fmt.Sprint] on
    a [uint32], [fmt.Sprintf("%q", _)], [strconv.ParseUint]) and the
    collaborators they talk to (the [backend.Storage] interface and the
    client stream). Handlers are written in a small state monad over a
    [World] that holds the backend's state, the trace of backend calls and
    both directions of the stream. *)

From Stdlib Require Import ZArith Ascii String.
From Stdlib Require Strings.Byte.
From stdpp Require Import base tactics option list strings gmap.

#[local] Open Scope Z_scope.

(** ** Go runtime *)

(** Go's [error] values. [errors.New] allocates a fresh value, so the
    sentinel of this package is a constructor of its own; [NumError] is
    [*strconv.NumError]; [OtherError] stands for any error value made
    outside this package (backend, transport). *)
Inductive NumErr := ErrSyntax | ErrRange.

Inductive error :=
| errUnsupportedWriteOperation
| NumError (Func Num : string) (Err : NumErr)
| OtherError (msg : string).

Definition error_text (e : error) : string :=
  match e with
  | errUnsupportedWriteOperation => "unsupported write operation"
  | NumError f n ErrSyntax =>
      "strconv." +:+ f +:+ ": parsing " +:+ n +:+ ": invalid syntax"
  | NumError f n ErrRange =>
      "strconv." +:+ f +:+ ": parsing " +:+ n +:+ ": value out of range"
  | OtherError msg => msg
  end.

#[global] Instance NumErr_eq_dec : EqDecision NumErr.
Proof. solve_decision. Defined.

#[global] Instance error_eq_dec : EqDecision error.
Proof. solve_decision. Defined.

(** A Go slice is either nil or a (possibly empty) backing sequence. *)
Inductive slice (A : Type) :=
| nil_slice
| Slice (elems : list A).
Arguments nil_slice {A}.
Arguments Slice {A} elems.

Definition is_nil {A} (s : slice A) : bool :=
  match s with nil_slice => true | Slice _ => false end.

Definition elems_of {A} (s : slice A) : list A :=
  match s with nil_slice => [] | Slice l => l end.

Definition len {A} (s : slice A) : nat := length (elems_of s).

(** [make([]*T, n)]: a non-nil slice of [n] nil pointers. *)
Definition make {T} (n : nat) : slice (option T) := Slice (replicate n None).

Module fmt.

Definition digit (d : Z) : ascii := ascii_of_nat (48 + Z.to_nat d).

(** The method [fmtInteger] of [fmt.fmt], base 10, no flags: the digits
    are written from the right end of [intbuf], [i] being the number of
    free bytes left of the ones written; an index below zero is a run-time
    panic. *)
Fixpoint fmtInteger_loop (i : nat) (u : Z) (buf : string) : option string :=
  match i with
  | O => None
  | S i' =>
      if 10 <=? u then
        let next := u / 10 in
        fmtInteger_loop i' next (String (digit (u - next * 10)) buf)
      else Some (String (digit u) buf)
  end.

(** len(intbuf) = 68 *)
Definition intbuf_len : nat := 68.

Definition fmtInteger (u : Z) : option string :=
  fmtInteger_loop intbuf_len u EmptyString.

(** [fmt.Sprint(x)] for [x uint32]: widened to uint64 and printed by
    [fmtInteger]. *)
Definition Sprint_uint32 (x : Z) : option string := fmtInteger x.

End fmt.

Module strconv.

Definition maxUint64 : Z := 2 ^ 64 - 1.
Definition wrap64 (x : Z) : Z := x mod 2 ^ 64.

Definition lower (c : Z) : Z := Z.lor c 32.

Definition byte_val (c : ascii) : Z := Z.of_nat (nat_of_ascii c).

(** What the loop of [ParseUint] leaves: the value, or the value to
    return together with the kind of failure. *)
Inductive scan := Scanned (n : Z) | Failed (n : Z) (e : NumErr).

(** One digit of [ParseUint] with [base0 = false]. *)
Definition parse_step (base cutoff maxVal n : Z) (c : ascii) : scan :=
  let c := byte_val c in
  let d :=
    if (48 <=? c) && (c <=? 57) then Some (c - 48)
    else if (97 <=? lower c) && (lower c <=? 122)
         then Some (lower c - 97 + 10)
         else None in
  match d with
  | None => Failed 0 ErrSyntax
  | Some d =>
      if base <=? d then Failed 0 ErrSyntax
      else if cutoff <=? n then Failed maxVal ErrRange
      else
        let n := wrap64 (n * base) in
        let n1 := wrap64 (n + d) in
        if (n1 <? n) || (maxVal <? n1) then Failed maxVal ErrRange
        else Scanned n1
  end.

Fixpoint parse_loop (base cutoff maxVal n : Z) (s : string) : scan :=
  match s with
  | EmptyString => Scanned n
  | String c s' =>
      match parse_step base cutoff maxVal n c with
      | Scanned n1 => parse_loop base cutoff maxVal n1 s'
      | Failed v e => Failed v e
      end
  end.

(** [strconv.ParseUint(s, base, bitSize)] for [2 <= base <= 36] and
    [1 <= bitSize <= 64], the range the server calls it in. *)
Definition ParseUint (s : string) (base bitSize : Z) : Z * option error :=
  if decide (s = EmptyString) then (0, Some (NumError "ParseUint" s ErrSyntax))
  else
    let cutoff := maxUint64 / base + 1 in
    let maxVal := 2 ^ bitSize - 1 in
    match parse_loop base cutoff maxVal 0 s with
    | Scanned n => (n, None)
    | Failed v e => (v, Some (NumError "ParseUint" s e))
    end.

Definition lowerhex (n : Z) : ascii :=
  if n <? 10 then ascii_of_nat (48 + Z.to_nat n)
  else ascii_of_nat (87 + Z.to_nat n).

Definition backslash : ascii := "092".
Definition dquote : ascii := "034".

Definition IsPrint_ascii (r : Z) : bool := (32 <=? r) && (r <? 127).

(** [appendEscapedRune] with the double quote as [quote] and [ASCIIonly =
    graphicOnly = false], for a rune below [utf8.RuneSelf]. *)
Definition appendEscapedRune (r : ascii) : string :=
  let v := byte_val r in
  if (v =? 34) || (v =? 92) then String backslash (String r EmptyString)
  else if IsPrint_ascii v then String r EmptyString
  else if v =? 7 then String backslash "a"
  else if v =? 8 then String backslash "b"
  else if v =? 12 then String backslash "f"
  else if v =? 10 then String backslash "n"
  else if v =? 13 then String backslash "r"
  else if v =? 9 then String backslash "t"
  else if v =? 11 then String backslash "v"
  else String backslash
         (String "x" (String (lowerhex (Z.shiftr v 4))
                        (String (lowerhex (Z.land v 15)) EmptyString))).

Section Quote.
(** How [appendQuotedWith] renders the rest of a string from its first
    byte at or above [utf8.RuneSelf] on; that depends on UTF-8 decoding
    and on the tables of package [unicode]. *)
Variable quoteFromRuneSelf : string -> string.

Fixpoint quote_body (s : string) : string :=
  match s with
  | EmptyString => EmptyString
  | String c s' =>
      if byte_val c <? 128 then appendEscapedRune c +:+ quote_body s'
      else quoteFromRuneSelf s
  end.

(** [strconv.Quote] *)
Definition Quote (s : string) : string :=
  String dquote (quote_body s +:+ String dquote EmptyString).
End Quote.

End strconv.

(** ** Package [internal/checksum] *)

Module checksum.

Definition u32 (x : Z) : Z := x mod 2 ^ 32.

Definition rotl32 (x c : Z) : Z :=
  u32 (Z.lor (Z.shiftl x c) (Z.shiftr x (32 - c))).

Definition not32 (x : Z) : Z := Z.lxor x 4294967295.

Definition shifts : list Z :=
  [7; 12; 17; 22; 7; 12; 17; 22; 7; 12; 17; 22; 7; 12; 17; 22;
   5; 9; 14; 20; 5; 9; 14; 20; 5; 9; 14; 20; 5; 9; 14; 20;
   4; 11; 16; 23; 4; 11; 16; 23; 4; 11; 16; 23; 4; 11; 16; 23;
   6; 10; 15; 21; 6; 10; 15; 21; 6; 10; 15; 21; 6; 10; 15; 21].

Definition sines : list Z :=
  [3614090360; 3905402710; 606105819; 3250441966; 4118548399; 1200080426;
   2821735955; 4249261313; 1770035416; 2336552879; 4294925233; 2304563134;
   1804603682; 4254626195; 2792965006; 1236535329; 4129170786; 3225465664;
   643717713; 3921069994; 3593408605; 38016083; 3634488961; 3889429448;
   568446438; 3275163606; 4107603335; 1163531501; 2850285829; 4243563512;
   1735328473; 2368359562; 4294588738; 2272392833; 1839030562; 4259657740;
   2763975236; 1272893353; 4139469664; 3200236656; 681279174; 3936430074;
   3572445317; 76029189; 3654602809; 3873151461; 530742520; 3299628645;
   4096336452; 1126891415; 2878612391; 4237533241; 1700485571; 2399980690;
   4293915773; 2240044497; 1873313359; 4264355552; 2734768916; 1309151649;
   4149444226; 3174756917; 718787259; 3951481745].

(** Little-endian value of a byte sequence, and the [n] little-endian bytes
    of a value. *)
Fixpoint le_word (bs : list Z) : Z :=
  match bs with
  | [] => 0
  | b :: bs' => b + 256 * le_word bs'
  end.

Fixpoint le_bytes (n : nat) (x : Z) : list Z :=
  match n with
  | O => []
  | S n' => x mod 256 :: le_bytes n' (x / 256)
  end.

Fixpoint blocks (fuel k : nat) (l : list Z) : list (list Z) :=
  match fuel, l with
  | O, _ | _, [] => []
  | S fuel', _ => take k l :: blocks fuel' k (drop k l)
  end.

Definition md5_pad (msg : list Z) : list Z :=
  let n := Z.of_nat (length msg) in
  msg ++ [128] ++ replicate (Z.to_nat ((55 - n) mod 64)) 0
      ++ le_bytes 8 ((8 * n) mod 2 ^ 64).

Definition md5_state : Type := Z * Z * Z * Z.

Definition md5_init : md5_state :=
  (1732584193, 4023233417, 2562383102, 271733878).

Definition md5_step (M : list Z) (st : md5_state) (i : nat) : md5_state :=
  let '(a, b, c, d) := st in
  let '(f, g) :=
    match Nat.div i 16 with
    | 0%nat => (Z.lor (Z.land b c) (Z.land (not32 b) d), i)
    | 1%nat => (Z.lor (Z.land d b) (Z.land (not32 d) c),
                Nat.modulo (5 * i + 1) 16)
    | 2%nat => (Z.lxor (Z.lxor b c) d, Nat.modulo (3 * i + 5) 16)
    | _ => (Z.lxor c (Z.lor b (not32 d)), Nat.modulo (7 * i) 16)
    end in
  let f := u32 (f + a + nth i sines 0 + nth g M 0) in
  (d, u32 (b + rotl32 f (nth i shifts 0)), b, c).

Definition md5_block (st : md5_state) (block : list Z) : md5_state :=
  let M := map le_word (blocks 16 4 block) in
  let '(a, b, c, d) := st in
  let '(a', b', c', d') := fold_left (md5_step M) (seq 0 64) st in
  (u32 (a + a'), u32 (b + b'), u32 (c + c'), u32 (d + d')).

Definition md5_sum (msg : list Z) : list Z :=
  let padded := md5_pad msg in
  let '(a, b, c, d) :=
    fold_left md5_block (blocks (length padded) 64 padded) md5_init in
  le_bytes 4 a ++ le_bytes 4 b ++ le_bytes 4 c ++ le_bytes 4 d.

Definition byte_to_Z (b : Byte.byte) : Z := Z.of_N (Byte.to_N b).

(** Modelled from the spec: [checksum.MD5Hash] ([internal/checksum] is not
    among the sources), the MD5 digest of the content (RFC 1321). *)
Definition MD5Hash (b : list Byte.byte) : list Z :=
  md5_sum (map byte_to_Z b).

Definition encodeStd : list ascii :=
  list_ascii_of_string
    "ABCDEFGHIJKLMNOPQRSTUVWXYZabcdefghijklmnopqrstuvwxyz0123456789+/".

Definition padChar : ascii := "=".

Definition enc (k : Z) : ascii := nth (Z.to_nat k) encodeStd padChar.

(** [base64.StdEncoding.EncodeToString] *)
Fixpoint EncodeToString (src : list Z) : string :=
  match src with
  | [] => EmptyString
  | [a] =>
      String (enc (a / 4)) (String (enc (a mod 4 * 16))
        (String padChar (String padChar EmptyString)))
  | [a; b] =>
      String (enc (a / 4)) (String (enc (a mod 4 * 16 + b / 16))
        (String (enc (b mod 16 * 4)) (String padChar EmptyString)))
  | a :: b :: c :: src' =>
      String (enc (a / 4)) (String (enc (a mod 4 * 16 + b / 16))
        (String (enc (b mod 16 * 4 + c / 64)) (String (enc (c mod 64))
          (EncodeToString src'))))
  end.

(** Modelled from the spec: [checksum.EncodedHash] and
    [checksum.EncodedMd5Hash] ([internal/checksum] is not among the
    sources): the digest in base 64, standard alphabet, padded. *)
Definition EncodedHash (hash : list Z) : string := EncodeToString hash.

Definition EncodedMd5Hash (content : list Byte.byte) : string :=
  EncodedHash (MD5Hash content).

End checksum.

(** ** Records of the collaborating packages *)

(** [time.Time], as far as [timestamppb.New] reads it. *)
Module time.
Record Time := { Unix : Z; Nanosecond : Z }.
Definition zero : Time := {| Unix := -62135596800; Nanosecond := 0 |}.
End time.

(** [cloud.google.com/go/storage] *)
Module storage.

Module ProjectTeam.
Record t := { ProjectNumber : string; Team : string }.
End ProjectTeam.

Module ACLRule.
Record t := {
  Entity : string;
  EntityID : string;
  Role : string;
  Domain : string;
  Email : string;
  ProjectTeam : option ProjectTeam.t
}.
End ACLRule.

End storage.

(** [google.golang.org/genproto/googleapis/storage/v2]: the messages the
    handlers read and build. A message field of pointer type is an
    [option]; a repeated field is a [slice]. *)
Module pb.

Module Bucket.
Record t := { Name : string }.
End Bucket.

Module ProjectTeam.
Record t := { ProjectNumber : string; Team : string }.
End ProjectTeam.

Module ObjectAccessControl.
Record t := {
  Role : string;
  Id : string;
  Entity : string;
  Email : string;
  Domain : string;
  ProjectTeam : option ProjectTeam.t
}.
End ObjectAccessControl.

Module ObjectChecksums.
Record t := { Crc32C : option Z; Md5Hash : list Byte.byte }.
End ObjectChecksums.

Module Timestamp.
Record t := { Seconds : Z; Nanos : Z }.
End Timestamp.

Module Object.
Record t := {
  Name : string;
  Bucket : string;
  Size : Z;
  Generation : Z;
  ContentType : string;
  ContentEncoding : string;
  CreateTime : option Timestamp.t;
  DeleteTime : option Timestamp.t;
  UpdateTime : option Timestamp.t;
  Metadata : gmap string string;
  Checksums : option ObjectChecksums.t;
  Acl : slice (option ObjectAccessControl.t)
}.

(** The message with every field at its zero value. *)
Definition zero : t :=
  {| Name := ""; Bucket := ""; Size := 0; Generation := 0;
     ContentType := ""; ContentEncoding := "";
     CreateTime := None; DeleteTime := None; UpdateTime := None;
     Metadata := ∅; Checksums := None; Acl := nil_slice |}.
End Object.

Module ListBucketsRequest.
Record t := { Project : string }.
End ListBucketsRequest.

Module ListBucketsResponse.
Record t := { Buckets : slice (option Bucket.t) }.
End ListBucketsResponse.

Module ListObjectsRequest.
Record t := { Parent : string; Prefix : string; Versions : bool }.
End ListObjectsRequest.

Module ListObjectsResponse.
Record t := { Objects : slice (option Object.t) }.
End ListObjectsResponse.

Module WriteObjectSpec.
Record t := { Resource : option Object.t; PredefinedAcl : string }.
End WriteObjectSpec.

Module ChecksummedData.
Record t := { Content : list Byte.byte; Crc32C : option Z }.
End ChecksummedData.

(** The two oneofs of [WriteObjectRequest]. *)
Inductive isWriteObjectRequest_FirstMessage :=
| WriteObjectRequest_UploadId (UploadId : string)
| WriteObjectRequest_WriteObjectSpec (WriteObjectSpec : option WriteObjectSpec.t).

Inductive isWriteObjectRequest_Data :=
| WriteObjectRequest_ChecksummedData (ChecksummedData : option ChecksummedData.t).

Module WriteObjectRequest.
Record t := {
  FirstMessage : option isWriteObjectRequest_FirstMessage;
  WriteOffset : Z;
  Data : option isWriteObjectRequest_Data;
  FinishWrite : bool
}.

(** The generated getters; both accept a nil receiver. *)
Definition GetChecksummedData (x : option t) : option ChecksummedData.t :=
  match x with
  | Some x =>
      match Data x with
      | Some (WriteObjectRequest_ChecksummedData d) => d
      | None => None
      end
  | None => None
  end.

Definition GetWriteObjectSpec (x : option t) : option WriteObjectSpec.t :=
  match x with
  | Some x =>
      match FirstMessage x with
      | Some (WriteObjectRequest_WriteObjectSpec spec) => spec
      | _ => None
      end
  | None => None
  end.
End WriteObjectRequest.

Inductive isWriteObjectResponse_WriteStatus :=
| WriteObjectResponse_PersistedSize (PersistedSize : Z)
| WriteObjectResponse_Resource (Resource : option Object.t).

Module WriteObjectResponse.
Record t := { WriteStatus : option isWriteObjectResponse_WriteStatus }.
End WriteObjectResponse.

End pb.

Module timestamppb.
Definition New (t : time.Time) : option pb.Timestamp.t :=
  Some {| pb.Timestamp.Seconds := time.Unix t;
          pb.Timestamp.Nanos := time.Nanosecond t |}.
End timestamppb.

(** ** Package [internal/backend] *)

Module backend.

Module Bucket.
Record t := { Name : string; VersioningEnabled : bool; TimeCreated : time.Time }.
End Bucket.

(** [backend.Object] with its embedded [ObjectAttrs]. The type is declared
    outside the sources: the fields are the ones the handlers read or
    write, and [Size], the stored size the specification sets against the
    length of the content. The server's own [Object], to which
    [fromBackendObjects] converts, is given the same shape. *)
Module Object.
Record t := {
  BucketName : string;
  Name : string;
  Size : Z;
  ContentType : string;
  ContentEncoding : string;
  Crc32c : string;
  Md5Hash : string;
  Etag : string;
  ACL : list storage.ACLRule.t;
  Metadata : gmap string string;
  Created : time.Time;
  Deleted : time.Time;
  Updated : time.Time;
  Generation : Z;
  Content : list Byte.byte
}.

Definition with_Crc32c (o : t) (crc : string) : t :=
  {| BucketName := BucketName o; Name := Name o; Size := Size o;
     ContentType := ContentType o; ContentEncoding := ContentEncoding o;
     Crc32c := crc; Md5Hash := Md5Hash o; Etag := Etag o; ACL := ACL o;
     Metadata := Metadata o; Created := Created o; Deleted := Deleted o;
     Updated := Updated o; Generation := Generation o;
     Content := Content o |}.
End Object.

(** The interface [backend.Storage], as far as the server calls it. A
    method reads and writes the backend's state [σ] and returns Go's pair
    of a value and an error. *)
Class Storage (σ : Type) := {
  CreateBucket : string -> bool -> σ -> option error * σ;
  ListBuckets : σ -> (list Bucket.t * option error) * σ;
  ListObjects : string -> string -> bool -> σ ->
                (list Object.t * option error) * σ;
  CreateObject : Object.t -> σ -> (Object.t * option error) * σ
}.

(** A call on the interface and the error it came back with, as a spy
    would record them. *)
Inductive Call :=
| CreateBucketCall (name : string) (versioningEnabled : bool)
| ListBucketsCall
| ListObjectsCall (parent prefix : string) (versions : bool)
| CreateObjectCall (obj : Object.t).

Record Event := { call : Call; returned : option error }.

End backend.

(** ** Package [fakestorage] *)

Module fakestorage.

(** Modelled from the spec: [fromBackendObjects] (declared in a file that
    is not among the sources) hands the backend's committed records to the
    translation, one per record and in order; the translation layer only
    reads them. *)
Definition fromBackendObjects (objects : list backend.Object.t)
  : list backend.Object.t :=
  foldl (fun ret o => ret ++ [o]) [] objects.

Record StorageServer := { url : string; externalURL : string }.

Definition URL (s : StorageServer) : string :=
  if negb (String.eqb (externalURL s) "") then externalURL s
  else if negb (String.eqb (url s) "") then url s
  else "".

Record CreateBucketOpts := { Name : string; VersioningEnabled : bool }.

(** *** The world a handler runs in *)

(** The backend behind [s.backend] with the calls made on it so far, and
    the client stream of [WriteObject]: the messages still to be received,
    the error [Recv] reports once they are used up ([io.EOF] or a transport
    error), the responses handed to [SendAndClose] and what [SendAndClose]
    answers. *)
Record World (σ : Type) := {
  backend_state : σ;
  backend_calls : list backend.Event;
  stream_in : list pb.WriteObjectRequest.t;
  stream_end : error;
  stream_out : list pb.WriteObjectResponse.t;
  send_result : option error
}.
Arguments backend_state {σ} _.
Arguments backend_calls {σ} _.
Arguments stream_in {σ} _.
Arguments stream_end {σ} _.
Arguments stream_out {σ} _.
Arguments send_result {σ} _.

(** The message the next [Recv] delivers, if any. *)
Definition first_message {σ} (w : World σ) : option pb.WriteObjectRequest.t :=
  head (stream_in w).

(** The world after one [Recv]. *)
Definition received {σ} (w : World σ) : World σ :=
  {| backend_state := backend_state w;
     backend_calls := backend_calls w;
     stream_in := tail (stream_in w); stream_end := stream_end w;
     stream_out := stream_out w; send_result := send_result w |}.

(** The world after a backend call [c] that returned [err] and left the
    backend in [st]. *)
Definition called {σ} (w : World σ) (c : backend.Call) (err : option error)
    (st : σ) : World σ :=
  {| backend_state := st;
     backend_calls :=
       backend_calls w ++ [{| backend.call := c; backend.returned := err |}];
     stream_in := stream_in w; stream_end := stream_end w;
     stream_out := stream_out w; send_result := send_result w |}.

(** The world after [m] was handed to [SendAndClose]. *)
Definition sent {σ} (w : World σ) (m : pb.WriteObjectResponse.t) : World σ :=
  {| backend_state := backend_state w;
     backend_calls := backend_calls w;
     stream_in := stream_in w; stream_end := stream_end w;
     stream_out := stream_out w ++ [m]; send_result := send_result w |}.

(** A handler either returns or panics (nil dereference, index out of
    range, a failed [CreateBucket]); either way it leaves a world behind. *)
Inductive Outcome (A : Type) :=
| Returned (a : A)
| Panicked.
Arguments Returned {A} a.
Arguments Panicked {A}.

Definition M (σ A : Type) : Type := World σ -> Outcome A * World σ.

Definition ret {σ A} (a : A) : M σ A := fun w => (Returned a, w).

Definition bind {σ A B} (m : M σ A) (k : A -> M σ B) : M σ B :=
  fun w =>
    match m w with
    | (Returned a, w') => k a w'
    | (Panicked, w') => (Panicked, w')
    end.

Definition panic {σ A} : M σ A := fun w => (Panicked, w).

Notation "'let*' x ':=' m 'in' k" := (bind m (fun x => k))
  (at level 10, x pattern, m at level 100, k at level 200).

(** [*p] for a pointer [p]. *)
Definition deref {σ A} (p : option A) : M σ A :=
  match p with
  | Some a => ret a
  | None => panic
  end.

(** [l[i]] *)
Definition index {σ A} (l : list A) (i : nat) : M σ A := deref (l !! i).

(** [for i, x := range xs { dst[i] = &f(x) }], from index [i] on; [None]
    is the index-out-of-range panic. *)
Fixpoint range_assign {A B} (f : A -> B) (i : nat) (xs : list A)
    (dst : list (option B)) : option (list (option B)) :=
  match xs with
  | [] => Some dst
  | x :: xs' =>
      if decide (i < length dst)%nat
      then range_assign f (S i) xs' (<[i := Some (f x)]> dst)
      else None
  end.

Definition uint32 (x : Z) : Z := x mod 2 ^ 32.

(** [int64(len(b))]: a length fits the 64-bit [int]. *)
Definition int64_len {A} (b : list A) : Z := Z.of_nat (length b).

(** [s.backend.M(...)]: run the method on the backend's state and record
    the call. *)
Definition call_backend {σ A} (c : backend.Call)
    (m : σ -> (A * option error) * σ) : M σ (A * option error) :=
  fun w =>
    let '((a, err), st) := m (backend_state w) in
    (Returned (a, err), called w c err st).

(** [writeServer.Recv()] *)
Definition Recv {σ} : M σ (option pb.WriteObjectRequest.t * option error) :=
  fun w =>
    match stream_in w with
    | m :: _ => (Returned (Some m, None), received w)
    | [] => (Returned (None, Some (stream_end w)), received w)
    end.

(** [writeServer.SendAndClose(m)] *)
Definition SendAndClose {σ} (m : pb.WriteObjectResponse.t)
  : M σ (option error) :=
  fun w => (Returned (send_result w), sent w m).

(** The bucket and the object of a listing: the name and nothing else. *)
Definition listed_bucket (bucket : backend.Bucket.t) : pb.Bucket.t :=
  {| pb.Bucket.Name := backend.Bucket.Name bucket |}.

Definition listed_object (object : backend.Object.t) : pb.Object.t :=
  {| pb.Object.Name := backend.Object.Name object;
     pb.Object.Bucket := ""; pb.Object.Size := 0;
     pb.Object.Generation := 0; pb.Object.ContentType := "";
     pb.Object.ContentEncoding := ""; pb.Object.CreateTime := None;
     pb.Object.DeleteTime := None; pb.Object.UpdateTime := None;
     pb.Object.Metadata := ∅; pb.Object.Checksums := None;
     pb.Object.Acl := nil_slice |}.

(** The body of the loop over [created.ACL]: the entry, then its project
    team when the rule has one. *)
Definition respAcl (acl : storage.ACLRule.t) : pb.ObjectAccessControl.t :=
  let entry pt :=
    {| pb.ObjectAccessControl.Role := storage.ACLRule.Role acl;
       pb.ObjectAccessControl.Id := storage.ACLRule.EntityID acl;
       pb.ObjectAccessControl.Entity := storage.ACLRule.Entity acl;
       pb.ObjectAccessControl.Email := storage.ACLRule.Email acl;
       pb.ObjectAccessControl.Domain := storage.ACLRule.Domain acl;
       pb.ObjectAccessControl.ProjectTeam := pt |} in
  match storage.ACLRule.ProjectTeam acl with
  | Some team =>
      entry (Some {| pb.ProjectTeam.ProjectNumber :=
                       storage.ProjectTeam.ProjectNumber team;
                     pb.ProjectTeam.Team := storage.ProjectTeam.Team team |})
  | None => entry None
  end.

(** When [data.Crc32C] is not nil, [reqObj.Crc32c] becomes [fmt.Sprint] of
    the value it points to; [None] is a panic inside [fmt]. *)
Definition attach_crc32c (reqObj : backend.Object.t) (Crc32C : option Z)
  : option backend.Object.t :=
  match Crc32C with
  | Some crc =>
      match fmt.Sprint_uint32 crc with
      | Some text => Some (backend.Object.with_Crc32c reqObj text)
      | None => None
      end
  | None => Some reqObj
  end.

(** The wire object of the response of [WriteObject]. *)
Definition resource_of (created : backend.Object.t) (crc32c : Z)
    (respAcls : list (option pb.ObjectAccessControl.t)) : pb.Object.t :=
  {| pb.Object.Name := backend.Object.Name created;
     pb.Object.Bucket := backend.Object.BucketName created;
     pb.Object.Size := int64_len (backend.Object.Content created);
     pb.Object.Generation := backend.Object.Generation created;
     pb.Object.ContentType := backend.Object.ContentType created;
     pb.Object.ContentEncoding := backend.Object.ContentEncoding created;
     pb.Object.CreateTime := timestamppb.New (backend.Object.Created created);
     pb.Object.DeleteTime := timestamppb.New (backend.Object.Deleted created);
     pb.Object.UpdateTime := timestamppb.New (backend.Object.Updated created);
     pb.Object.Metadata := backend.Object.Metadata created;
     pb.Object.Checksums :=
       Some {| pb.ObjectChecksums.Crc32C := Some crc32c;
               pb.ObjectChecksums.Md5Hash :=
                 list_byte_of_string (backend.Object.Md5Hash created) |};
     pb.Object.Acl := Slice respAcls |}.

Section Server.
Context {σ : Type} `{!backend.Storage σ}.

(** [getObjectACL], declared outside the sources: the preset-resolution
    rule that expands a predefined ACL into access-control entries. *)
Variable getObjectACL : string -> list storage.ACLRule.t.

(** See [strconv.Quote]. *)
Variable quoteFromRuneSelf : string -> string.

Definition CreateBucketWithOpts (opts : CreateBucketOpts) : M σ unit :=
  let* (_, err) :=
    call_backend
      (backend.CreateBucketCall (Name opts) (VersioningEnabled opts))
      (fun st =>
         let '(err, st') :=
           backend.CreateBucket (Name opts) (VersioningEnabled opts) st in
         ((tt, err), st')) in
  match err with
  | Some _ => panic
  | None => ret tt
  end.

Definition ListBuckets (_ : pb.ListBucketsRequest.t)
  : M σ (option pb.ListBucketsResponse.t * option error) :=
  let* (buckets, err) :=
    call_backend backend.ListBucketsCall backend.ListBuckets in
  match err with
  | Some err => ret (None, Some err)
  | None =>
      let* Buckets :=
        deref (range_assign listed_bucket 0 buckets
                 (elems_of (make (length buckets)))) in
      let resp := {| pb.ListBucketsResponse.Buckets := Slice Buckets |} in
      ret (Some resp, None)
  end.

Definition ListObjects (req : pb.ListObjectsRequest.t)
  : M σ (option pb.ListObjectsResponse.t * option error) :=
  let* (objects, err) :=
    call_backend
      (backend.ListObjectsCall (pb.ListObjectsRequest.Parent req)
         (pb.ListObjectsRequest.Prefix req) (pb.ListObjectsRequest.Versions req))
      (backend.ListObjects (pb.ListObjectsRequest.Parent req)
         (pb.ListObjectsRequest.Prefix req) (pb.ListObjectsRequest.Versions req)) in
  match err with
  | Some err => ret (None, Some err)
  | None =>
      let* Objects :=
        deref (range_assign listed_object 0 objects
                 (elems_of (make (length objects)))) in
      let resp := {| pb.ListObjectsResponse.Objects := Slice Objects |} in
      ret (Some resp, None)
  end.

(** The request object of [WriteObject], before the checksum is attached. *)
Definition reqObj_of (Resource : pb.Object.t) (PredefinedAcl : string)
    (Content : list Byte.byte) : backend.Object.t :=
  let md5Hash := checksum.EncodedMd5Hash Content in
  {| backend.Object.BucketName := pb.Object.Bucket Resource;
     backend.Object.Name := pb.Object.Name Resource;
     backend.Object.Size := 0;
     backend.Object.ContentType := pb.Object.ContentType Resource;
     backend.Object.ContentEncoding := pb.Object.ContentEncoding Resource;
     backend.Object.Crc32c := "";
     backend.Object.Md5Hash := md5Hash;
     backend.Object.Etag := strconv.Quote quoteFromRuneSelf md5Hash;
     backend.Object.ACL := getObjectACL PredefinedAcl;
     backend.Object.Metadata := ∅;
     backend.Object.Created := time.zero;
     backend.Object.Deleted := time.zero;
     backend.Object.Updated := time.zero;
     backend.Object.Generation := 0;
     backend.Object.Content := Content |}.

Definition WriteObject : M σ (option error) :=
  let* (req, err) := Recv in
  let data := pb.WriteObjectRequest.GetChecksummedData req in
  match data with
  | None => ret (Some errUnsupportedWriteOperation)
  | Some data =>
  let spec := pb.WriteObjectRequest.GetWriteObjectSpec req in
  match spec with
  | None => ret (Some errUnsupportedWriteOperation)
  | Some spec =>
  let* Resource := deref (pb.WriteObjectSpec.Resource spec) in
  let reqObj :=
    reqObj_of Resource (pb.WriteObjectSpec.PredefinedAcl spec)
      (pb.ChecksummedData.Content data) in
  let* reqObj :=
    deref (attach_crc32c reqObj (pb.ChecksummedData.Crc32C data)) in
  let* (backendObj, err) :=
    call_backend (backend.CreateObjectCall reqObj)
      (backend.CreateObject reqObj) in
  match err with
  | Some err => ret (Some err)
  | None =>
  let* created := index (fromBackendObjects [backendObj]) 0 in
  let '(maybeCrc32c, err) :=
    strconv.ParseUint (backend.Object.Crc32c created) 10 32 in
  match err with
  | Some err => ret (Some err)
  | None =>
  let crc32c := uint32 maybeCrc32c in
  let* respAcls :=
    deref (range_assign respAcl 0 (backend.Object.ACL created)
             (elems_of (make (length (backend.Object.ACL created))))) in
  SendAndClose
    {| pb.WriteObjectResponse.WriteStatus :=
         Some (pb.WriteObjectResponse_Resource
                 (Some (resource_of created crc32c respAcls))) |}
  end end end end.

End Server.

End fakestorage.

(** ** A backend double

    An in-memory backend in the manner of a test spy: it keeps what it is
    given, hands committed objects back as they came, and answers every
    call with [fail] once that is set. *)

Module spy.

Record state := {
  buckets : list backend.Bucket.t;
  objects : list backend.Object.t;
  fail : option error
}.

Definition zero_object : backend.Object.t :=
  {| backend.Object.BucketName := ""; backend.Object.Name := "";
     backend.Object.Size := 0; backend.Object.ContentType := "";
     backend.Object.ContentEncoding := ""; backend.Object.Crc32c := "";
     backend.Object.Md5Hash := ""; backend.Object.Etag := "";
     backend.Object.ACL := []; backend.Object.Metadata := ∅;
     backend.Object.Created := time.zero; backend.Object.Deleted := time.zero;
     backend.Object.Updated := time.zero; backend.Object.Generation := 0;
     backend.Object.Content := [] |}.

Definition store (st : state) (obj : backend.Object.t) : state :=
  {| buckets := buckets st; objects := objects st ++ [obj]; fail := fail st |}.

Definition add_bucket (st : state) (name : string) (versioning : bool) : state :=
  {| buckets :=
       buckets st ++ [{| backend.Bucket.Name := name;
                         backend.Bucket.VersioningEnabled := versioning;
                         backend.Bucket.TimeCreated := time.zero |}];
     objects := objects st; fail := fail st |}.

Definition matches (parent pfx : string) (o : backend.Object.t) : bool :=
  String.eqb (backend.Object.BucketName o) parent
  && String.prefix pfx (backend.Object.Name o).

#[global] Instance storage : backend.Storage state := {|
  backend.CreateBucket name versioning st :=
    match fail st with
    | Some e => (Some e, st)
    | None => (None, add_bucket st name versioning)
    end;
  backend.ListBuckets st :=
    match fail st with
    | Some e => (([], Some e), st)
    | None => ((buckets st, None), st)
    end;
  backend.ListObjects parent pfx versions st :=
    match fail st with
    | Some e => (([], Some e), st)
    | None => ((List.filter (matches parent pfx) (objects st), None), st)
    end;
  backend.CreateObject obj st :=
    match fail st with
    | Some e => ((zero_object, Some e), st)
    | None => ((obj, None), store st obj)
    end
|}.

Definition empty : state := {| buckets := []; objects := []; fail := None |}.

Definition failing (e : error) : state :=
  {| buckets := []; objects := []; fail := Some e |}.

(** A preset-resolution rule for the double. *)
Definition getObjectACL (predefinedACL : string) : list storage.ACLRule.t :=
  let rule entity role :=
    {| storage.ACLRule.Entity := entity; storage.ACLRule.EntityID := "";
       storage.ACLRule.Role := role; storage.ACLRule.Domain := "";
       storage.ACLRule.Email := ""; storage.ACLRule.ProjectTeam := None |} in
  if String.eqb predefinedACL "publicRead" then [rule "allUsers" "READER"]
  else [rule "projectOwner" "OWNER"].

(** A fresh call: nothing recorded, nothing sent, the stream ending in
    [io.EOF] after [msgs]. *)
Definition world (st : state) (msgs : list pb.WriteObjectRequest.t)
  : fakestorage.World state :=
  {| fakestorage.backend_state := st;
     fakestorage.backend_calls := [];
     fakestorage.stream_in := msgs;
     fakestorage.stream_end := OtherError "EOF";
     fakestorage.stream_out := [];
     fakestorage.send_result := None |}.

(** Upload messages as a client writes them. *)
Definition resource (bucket name : string) : pb.Object.t :=
  {| pb.Object.Name := name; pb.Object.Bucket := bucket; pb.Object.Size := 0;
     pb.Object.Generation := 0; pb.Object.ContentType := "";
     pb.Object.ContentEncoding := ""; pb.Object.CreateTime := None;
     pb.Object.DeleteTime := None; pb.Object.UpdateTime := None;
     pb.Object.Metadata := ∅; pb.Object.Checksums := None;
     pb.Object.Acl := nil_slice |}.

Definition checksummed (text : string) (crc : option Z)
  : pb.ChecksummedData.t :=
  {| pb.ChecksummedData.Content := list_byte_of_string text;
     pb.ChecksummedData.Crc32C := crc |}.

Definition write_spec (bucket name : string) : pb.WriteObjectSpec.t :=
  {| pb.WriteObjectSpec.Resource := Some (resource bucket name);
     pb.WriteObjectSpec.PredefinedAcl := "" |}.

Definition upload (spec : option pb.WriteObjectSpec.t)
    (data : option pb.ChecksummedData.t) : pb.WriteObjectRequest.t :=
  {| pb.WriteObjectRequest.FirstMessage :=
       match spec with
       | Some spec => Some (pb.WriteObjectRequest_WriteObjectSpec (Some spec))
       | None => None
       end;
     pb.WriteObjectRequest.WriteOffset := 0;
     pb.WriteObjectRequest.Data :=
       match data with
       | Some data => Some (pb.WriteObjectRequest_ChecksummedData (Some data))
       | None => None
       end;
     pb.WriteObjectRequest.FinishWrite := false |}.

Definition WriteObject := fakestorage.WriteObject getObjectACL (fun s => s).

(** Streams used as examples: an upload of [hello] to object [o] of bucket
    [b] with and without a checksum, first messages that miss the spec or
    the data, an upload of no bytes, and an upload in two frames. *)
Definition hello (crc : option Z) : pb.WriteObjectRequest.t :=
  upload (Some (write_spec "b" "o")) (Some (checksummed "hello" crc)).

Definition data_without_spec : pb.WriteObjectRequest.t :=
  upload None (Some (checksummed "hello" None)).

Definition spec_without_data : pb.WriteObjectRequest.t :=
  upload (Some (write_spec "b" "o")) None.

Definition no_bytes : pb.WriteObjectRequest.t :=
  upload (Some (write_spec "b" "o")) (Some (checksummed "" (Some 0))).

Definition two_frames : list pb.WriteObjectRequest.t :=
  [upload (Some (write_spec "b" "o")) (Some (checksummed "hel" (Some 7)));
   upload None (Some (checksummed "lo" None))].

Definition unavailable : error := OtherError "backend unavailable".

(** The object the double commits for an upload of [text] to object [o]
    of bucket [b] with the checksum text [crc]. *)
Definition committed (text crc : string) : backend.Object.t :=
  backend.Object.with_Crc32c
    (fakestorage.reqObj_of getObjectACL (fun s => s) (resource "b" "o") ""
       (list_byte_of_string text))
    crc.

(** A backend that holds three objects of bucket [b], two of them under
    [img/]. *)
Definition stored (name : string) : backend.Object.t :=
  {| backend.Object.BucketName := "b"; backend.Object.Name := name;
     backend.Object.Size := 0; backend.Object.ContentType := "image/png";
     backend.Object.ContentEncoding := ""; backend.Object.Crc32c := "0";
     backend.Object.Md5Hash := ""; backend.Object.Etag := "";
     backend.Object.ACL := []; backend.Object.Metadata := ∅;
     backend.Object.Created := time.zero; backend.Object.Deleted := time.zero;
     backend.Object.Updated := time.zero; backend.Object.Generation := 1;
     backend.Object.Content := [] |}.

Definition listing_state : state :=
  store (store (store empty (stored "img/z.png")) (stored "doc/a.txt"))
    (stored "img/a.png").

End spy.

(** ** Vocabulary of the statements *)

(** A byte that [strconv.Quote] copies as it is: ASCII, printable, and
    neither the quote nor the backslash. *)
Definition plain (c : ascii) : bool :=
  let v := strconv.byte_val c in
  (v <? 128) && strconv.IsPrint_ascii v && negb ((v =? 34) || (v =? 92)).

Fixpoint all_plain (s : string) : bool :=
  match s with
  | EmptyString => true
  | String c s' => plain c && all_plain s'
  end.

(** [s] between double quotes. *)
Definition quoted (s : string) : string :=
  String strconv.dquote (s +:+ String strconv.dquote EmptyString).

(** The objects handed to [CreateObject] in a trace of backend calls. *)
Definition create_requests (calls : list backend.Event)
  : list backend.Object.t :=
  omap (fun ev =>
          match backend.call ev with
          | backend.CreateObjectCall obj => Some obj
          | _ => None
          end) calls.

(** The payload bytes of a frame, and of all frames of a stream in arrival
    order. *)
Definition frame_content (m : pb.WriteObjectRequest.t) : list Byte.byte :=
  match pb.WriteObjectRequest.GetChecksummedData (Some m) with
  | Some data => pb.ChecksummedData.Content data
  | None => []
  end.

Definition stream_content (msgs : list pb.WriteObjectRequest.t)
  : list Byte.byte :=
  concat (map frame_content msgs).

(** A first message "carries a non-empty data payload" when it has
    checksummed data whose content has at least one byte. *)
Definition carries_nonempty_data (m : option pb.WriteObjectRequest.t) : bool :=
  match pb.WriteObjectRequest.GetChecksummedData m with
  | Some data => negb (Nat.eqb (length (pb.ChecksummedData.Content data)) 0)
  | None => false
  end.

Definition carries_spec (m : option pb.WriteObjectRequest.t) : bool :=
  match pb.WriteObjectRequest.GetWriteObjectSpec m with
  | Some _ => true
  | None => false
  end.

(** A [*uint32], when set, points to a 32-bit value. *)
Definition uint32_ptr (p : option Z) : Prop :=
  match p with
  | Some x => 0 <= x < 2 ^ 32
  | None => True
  end.

(** The response [WriteObject] sends for the committed object [created]
    whose checksum text parsed to [crc32c]. *)
Definition acknowledgement (created : backend.Object.t) (crc32c : Z)
  : pb.WriteObjectResponse.t :=
  {| pb.WriteObjectResponse.WriteStatus :=
       Some (pb.WriteObjectResponse_Resource
               (Some (fakestorage.resource_of created crc32c
                        (map (fun acl => Some (fakestorage.respAcl acl))
                             (backend.Object.ACL created))))) |}.

(** The wire object inside a response, if it carries one. *)
Definition resource_in (m : pb.WriteObjectResponse.t) : option pb.Object.t :=
  match pb.WriteObjectResponse.WriteStatus m with
  | Some (pb.WriteObjectResponse_Resource r) => r
  | _ => None
  end.

(** The ways out of [WriteObject], one constructor per [return] and per
    panic of the function: the outcome and the world it leaves, from the
    world it starts in. *)
Section Runs.
Context {σ : Type} `{!backend.Storage σ}.
Variable getObjectACL : string -> list storage.ACLRule.t.
Variable quoteFromRuneSelf : string -> string.

Inductive WriteObject_run (w : fakestorage.World σ)
  : fakestorage.Outcome (option error) -> fakestorage.World σ -> Prop :=
| run_no_data :
    pb.WriteObjectRequest.GetChecksummedData (fakestorage.first_message w) = None ->
    WriteObject_run w
      (fakestorage.Returned (Some errUnsupportedWriteOperation))
      (fakestorage.received w)
| run_no_spec data :
    pb.WriteObjectRequest.GetChecksummedData (fakestorage.first_message w)
      = Some data ->
    pb.WriteObjectRequest.GetWriteObjectSpec (fakestorage.first_message w) = None ->
    WriteObject_run w
      (fakestorage.Returned (Some errUnsupportedWriteOperation))
      (fakestorage.received w)
| run_nil_resource data spec :
    pb.WriteObjectRequest.GetChecksummedData (fakestorage.first_message w)
      = Some data ->
    pb.WriteObjectRequest.GetWriteObjectSpec (fakestorage.first_message w)
      = Some spec ->
    pb.WriteObjectSpec.Resource spec = None ->
    WriteObject_run w fakestorage.Panicked (fakestorage.received w)
| run_fmt_panic data spec Resource :
    pb.WriteObjectRequest.GetChecksummedData (fakestorage.first_message w)
      = Some data ->
    pb.WriteObjectRequest.GetWriteObjectSpec (fakestorage.first_message w)
      = Some spec ->
    pb.WriteObjectSpec.Resource spec = Some Resource ->
    fakestorage.attach_crc32c
      (fakestorage.reqObj_of getObjectACL quoteFromRuneSelf Resource
         (pb.WriteObjectSpec.PredefinedAcl spec) (pb.ChecksummedData.Content data))
      (pb.ChecksummedData.Crc32C data) = None ->
    WriteObject_run w fakestorage.Panicked (fakestorage.received w)
| run_backend_error data spec Resource reqObj backendObj err st :
    pb.WriteObjectRequest.GetChecksummedData (fakestorage.first_message w)
      = Some data ->
    pb.WriteObjectRequest.GetWriteObjectSpec (fakestorage.first_message w)
      = Some spec ->
    pb.WriteObjectSpec.Resource spec = Some Resource ->
    fakestorage.attach_crc32c
      (fakestorage.reqObj_of getObjectACL quoteFromRuneSelf Resource
         (pb.WriteObjectSpec.PredefinedAcl spec) (pb.ChecksummedData.Content data))
      (pb.ChecksummedData.Crc32C data) = Some reqObj ->
    backend.CreateObject reqObj (fakestorage.backend_state w)
      = ((backendObj, Some err), st) ->
    WriteObject_run w (fakestorage.Returned (Some err))
      (fakestorage.called (fakestorage.received w)
         (backend.CreateObjectCall reqObj) (Some err) st)
| run_parse_error data spec Resource reqObj created v err st :
    pb.WriteObjectRequest.GetChecksummedData (fakestorage.first_message w)
      = Some data ->
    pb.WriteObjectRequest.GetWriteObjectSpec (fakestorage.first_message w)
      = Some spec ->
    pb.WriteObjectSpec.Resource spec = Some Resource ->
    fakestorage.attach_crc32c
      (fakestorage.reqObj_of getObjectACL quoteFromRuneSelf Resource
         (pb.WriteObjectSpec.PredefinedAcl spec) (pb.ChecksummedData.Content data))
      (pb.ChecksummedData.Crc32C data) = Some reqObj ->
    backend.CreateObject reqObj (fakestorage.backend_state w)
      = ((created, None), st) ->
    strconv.ParseUint (backend.Object.Crc32c created) 10 32 = (v, Some err) ->
    WriteObject_run w (fakestorage.Returned (Some err))
      (fakestorage.called (fakestorage.received w)
         (backend.CreateObjectCall reqObj) None st)
| run_sent data spec Resource reqObj created v st :
    pb.WriteObjectRequest.GetChecksummedData (fakestorage.first_message w)
      = Some data ->
    pb.WriteObjectRequest.GetWriteObjectSpec (fakestorage.first_message w)
      = Some spec ->
    pb.WriteObjectSpec.Resource spec = Some Resource ->
    fakestorage.attach_crc32c
      (fakestorage.reqObj_of getObjectACL quoteFromRuneSelf Resource
         (pb.WriteObjectSpec.PredefinedAcl spec) (pb.ChecksummedData.Content data))
      (pb.ChecksummedData.Crc32C data) = Some reqObj ->
    backend.CreateObject reqObj (fakestorage.backend_state w)
      = ((created, None), st) ->
    strconv.ParseUint (backend.Object.Crc32c created) 10 32 = (v, None) ->
    WriteObject_run w (fakestorage.Returned (fakestorage.send_result w))
      (fakestorage.sent
         (fakestorage.called (fakestorage.received w)
            (backend.CreateObjectCall reqObj) None st)
         (acknowledgement created (fakestorage.uint32 v))).

End Runs.

(** ** A backend double that rewrites the checksum

    It commits like [spy] and hands the committed object back with a
    checksum text of its own choosing. *)

Module tamper.

Record state := { inner : spy.state; crc32c : string }.

Definition around (st : state) (i : spy.state) : state :=
  {| inner := i; crc32c := crc32c st |}.

#[global] Instance storage : backend.Storage state := {|
  backend.CreateBucket name versioning st :=
    let '(err, i) := backend.CreateBucket name versioning (inner st) in
    (err, around st i);
  backend.ListBuckets st :=
    let '(r, i) := backend.ListBuckets (inner st) in (r, around st i);
  backend.ListObjects parent pfx versions st :=
    let '(r, i) := backend.ListObjects parent pfx versions (inner st) in
    (r, around st i);
  backend.CreateObject obj st :=
    let '((o, err), i) := backend.CreateObject obj (inner st) in
    ((backend.Object.with_Crc32c o (crc32c st), err), around st i)
|}.

Definition returning (text : string) : state :=
  {| inner := spy.empty; crc32c := text |}.

Definition world (st : state) (msgs : list pb.WriteObjectRequest.t)
    (send : option error) : fakestorage.World state :=
  {| fakestorage.backend_state := st;
     fakestorage.backend_calls := [];
     fakestorage.stream_in := msgs;
     fakestorage.stream_end := OtherError "EOF";
     fakestorage.stream_out := [];
     fakestorage.send_result := send |}.

Definition WriteObject :=
  fakestorage.WriteObject (σ := state) spy.getObjectACL (fun s => s).

End tamper.

(** ** Decimal text *)

(** The bytes ['0'] to ['9'], and the number a string of them denotes in
    base ten, most significant digit first, continuing from [n]. *)
Definition is_digit (c : ascii) : bool :=
  (48 <=? strconv.byte_val c) && (strconv.byte_val c <=? 57).

Fixpoint all_digits (s : string) : bool :=
  match s with
  | EmptyString => true
  | String c s' => is_digit c && all_digits s'
  end.

Fixpoint decimal_from (n : Z) (s : string) : Z :=
  match s with
  | EmptyString => n
  | String c s' => decimal_from (n * 10 + (strconv.byte_val c - 48)) s'
  end.

Definition decimal_value (s : string) : Z := decimal_from 0 s.

(** ** Construction of the server *)

Module construction.

(** [Options], declared outside the sources: the fields
    [NewStorageServer] reads. [Port] is an integer of a kind the sources
    do not show. *)
Record Options := {
  InitialObjects : list backend.Object.t;
  StorageRoot : string;
  Host : string;
  Port : Z;
  ExternalURL : string
}.

(** The verb [%d] of package [fmt] on an integer: [fmtInteger] on the
    magnitude, then the sign in front. *)
Definition Sprintf_d (x : Z) : option string :=
  if x <? 0 then
    match fmt.fmtInteger (- x) with
    | Some digits => Some (String "-" digits)
    | None => None
    end
  else fmt.fmtInteger x.

(** [fmt.Sprintf("%s:%d", host, port)]; [None] is a panic inside [fmt]. *)
Definition Sprintf_host_port (host : string) (port : Z) : option string :=
  match Sprintf_d port with
  | Some digits => Some (host +:+ ":" +:+ digits)
  | None => None
  end.

(** What the constructor does to the outside, in order. *)
Inductive Event :=
| NewStorageFSCall (objects : list backend.Object.t) (rootDir : string)
| NewStorageMemoryCall (objects : list backend.Object.t)
| ListenCall (network address : string)
| FatalfCall (format : string) (err : error)
| NewServerCall
| RegisterStorageServerCall (s : fakestorage.StorageServer)
| ServeCall.

(** The server handed back: the [StorageServer] with the backend it
    holds ([None] is a nil interface value). *)
Record Started (σ : Type) := {
  handle : fakestorage.StorageServer;
  backend_of : option σ
}.
Arguments handle {σ} _.
Arguments backend_of {σ} _.

(** The constructor returns its pair, ends the process ([log.Fatalf]),
    panics, or stays inside [Serve]. *)
Inductive Outcome (σ : Type) :=
| Returned (s : option (Started σ)) (err : option error)
| Exited
| Panicked
| Serving.
Arguments Returned {σ} s err.
Arguments Exited {σ}.
Arguments Panicked {σ}.
Arguments Serving {σ}.

Section NewStorageServer.
Context {σ L : Type}.

(** The collaborators, all declared outside the sources:
    [toBackendObjects], the two backend constructors, [net.Listen], and
    [Serve] of the gRPC server, which answers [None] when it never
    returns. *)
Variable toBackendObjects : list backend.Object.t -> list backend.Object.t.
Variable NewStorageFS :
  list backend.Object.t -> string -> option σ * option error.
Variable NewStorageMemory : list backend.Object.t -> σ.
Variable Listen : string -> string -> option L * option error.
Variable Serve : option L -> option (option error).

Definition NewStorageServer (options : Options)
  : Outcome σ * list Event :=
  let backendObjects := toBackendObjects (InitialObjects options) in
  let '(backendStorage, err, trace) :=
    if negb (String.eqb (StorageRoot options) "") then
      let '(backendStorage, err) :=
        NewStorageFS backendObjects (StorageRoot options) in
      (backendStorage, err,
       [NewStorageFSCall backendObjects (StorageRoot options)])
    else
      (Some (NewStorageMemory backendObjects), None,
       [NewStorageMemoryCall backendObjects]) in
  match err with
  | Some err => (Returned None (Some err), trace)
  | None =>
  match Sprintf_host_port (Host options) (Port options) with
  | None => (Panicked, trace)
  | Some addr =>
  let '(lis, err) := Listen "tcp" addr in
  let trace := trace ++ [ListenCall "tcp" addr] in
  match err with
  | Some err => (Exited, trace ++ [FatalfCall "failed to listen: %v" err])
  | None =>
  let s := {| fakestorage.url := addr;
              fakestorage.externalURL := ExternalURL options |} in
  let trace :=
    trace ++ [NewServerCall; RegisterStorageServerCall s; ServeCall] in
  match Serve lis with
  | None => (Serving, trace)
  | Some _ =>
      (Returned (Some {| handle := s; backend_of := backendStorage |}) None,
       trace)
  end end end end.

End NewStorageServer.

End construction.

(** ** More example streams and an environment for the constructor *)

Module more.

(** A first message whose spec names no resource. *)
Definition spec_without_resource : pb.WriteObjectSpec.t :=
  {| pb.WriteObjectSpec.Resource := None;
     pb.WriteObjectSpec.PredefinedAcl := "" |}.

Definition nil_resource : pb.WriteObjectRequest.t :=
  spy.upload (Some spec_without_resource) (Some (spy.checksummed "hello" None)).

(** The request [WriteObject] builds for [spy.hello None]. *)
Definition hello_request : backend.Object.t :=
  fakestorage.reqObj_of spy.getObjectACL (fun s => s) (spy.resource "b" "o")
    "" (list_byte_of_string "hello").

(** A backend with two buckets. *)
Definition two_buckets : spy.state :=
  spy.add_bucket (spy.add_bucket spy.empty "photos" false) "logs" true.

(** An environment in which only [localhost:8080] can be listened on, the
    file-system backend cannot be built, and [Serve] returns at once with
    an error. *)
Definition toBackendObjects (objects : list backend.Object.t)
  : list backend.Object.t := objects.

Definition NewStorageFS (objects : list backend.Object.t) (rootDir : string)
  : option spy.state * option error :=
  (None, Some (OtherError "mkdir: permission denied")).

Definition NewStorageMemory (objects : list backend.Object.t) : spy.state :=
  {| spy.buckets := []; spy.objects := objects; spy.fail := None |}.

Definition Listen (network address : string) : option unit * option error :=
  if String.eqb address "localhost:8080" then (Some tt, None)
  else (None, Some (OtherError "bind: address already in use")).

Definition Serve (lis : option unit) : option (option error) :=
  Some (Some (OtherError "server stopped")).

(** A [Serve] that keeps serving. *)
Definition ServeForever (lis : option unit) : option (option error) := None.

Definition NewStorageServer :=
  construction.NewStorageServer toBackendObjects NewStorageFS
    NewStorageMemory Listen Serve.

Definition options (root host : string) (port : Z) (external : string)
  : construction.Options :=
  {| construction.InitialObjects := [spy.stored "img/a.png"];
     construction.StorageRoot := root;
     construction.Host := host;
     construction.Port := port;
     construction.ExternalURL := external |}.

End more.

(** * Properties *)

(** ** Strings and digits *)

Lemma append_nil_l (s : string) : "" +:+ s = s.
Proof. reflexivity. Qed.

Lemma append_cons (c : ascii) (s1 s2 : string) :
  String c s1 +:+ s2 = String c (s1 +:+ s2).
Proof. reflexivity. Qed.

Lemma append_assoc (s1 s2 s3 : string) :
  (s1 +:+ s2) +:+ s3 = s1 +:+ (s2 +:+ s3).
Proof.
  induction s1 as [|c s1 IH]; [done|]. by rewrite !append_cons, IH.
Qed.

Lemma append_empty_r (s : string) : s +:+ "" = s.
Proof. induction s as [|c s IH]; [done|]. by rewrite append_cons, IH. Qed.

Lemma length_append (s1 s2 : string) :
  String.length (s1 +:+ s2) = (String.length s1 + String.length s2)%nat.
Proof.
  induction s1 as [|c s1 IH]; [done|]. rewrite append_cons. simpl. by rewrite IH.
Qed.

Lemma byte_val_ascii_of_nat (n : nat) :
  (n < 256)%nat -> strconv.byte_val (ascii_of_nat n) = Z.of_nat n.
Proof. intros Hn. unfold strconv.byte_val. by rewrite nat_ascii_embedding. Qed.

Lemma byte_val_digit (d : Z) :
  0 <= d <= 9 -> strconv.byte_val (fmt.digit d) = 48 + d.
Proof.
  intros Hd. unfold fmt.digit. rewrite byte_val_ascii_of_nat by lia. lia.
Qed.

(** ** [strconv.ParseUint] on decimal digits *)

Section ParseDecimal.
Variable bitSize : Z.
Hypothesis bitSize_range : 1 <= bitSize <= 64.

Let cutoff := strconv.maxUint64 / 10 + 1.
Let maxVal := 2 ^ bitSize - 1.

Lemma maxVal_le_maxUint64 : 0 < maxVal <= strconv.maxUint64.
Proof.
  unfold maxVal, strconv.maxUint64. split.
  - assert (2 ^ 1 <= 2 ^ bitSize) by (apply Z.pow_le_mono_r; lia). lia.
  - assert (2 ^ bitSize <= 2 ^ 64) by (apply Z.pow_le_mono_r; lia). lia.
Qed.

(** A digit that keeps the value within [maxVal] is taken in. *)
Lemma parse_step_digit (n d : Z) :
  0 <= n -> 0 <= d <= 9 -> n * 10 + d <= maxVal ->
  strconv.parse_step 10 cutoff maxVal n (fmt.digit d) = strconv.Scanned (n * 10 + d).
Proof.
  intros Hn Hd Hmax. pose proof maxVal_le_maxUint64 as Hm.
  unfold strconv.maxUint64 in Hm.
  unfold strconv.parse_step. rewrite byte_val_digit by done.
  replace ((48 <=? 48 + d) && (48 + d <=? 57)) with true
    by (symmetry; apply andb_true_iff; lia).
  replace (48 + d - 48) with d by lia.
  destruct (Z.leb_spec 10 d) as [?|_]; [lia|].
  subst cutoff. unfold strconv.maxUint64.
  destruct (Z.leb_spec ((2 ^ 64 - 1) / 10 + 1) n) as [Hc|_].
  { change ((2 ^ 64 - 1) / 10 + 1) with 1844674407370955162 in Hc. lia. }
  unfold strconv.wrap64.
  rewrite (Z.mod_small (n * 10)) by lia.
  rewrite (Z.mod_small (n * 10 + d)) by lia.
  destruct (Z.ltb_spec (n * 10 + d) (n * 10)) as [?|_]; [lia|].
  destruct (Z.ltb_spec maxVal (n * 10 + d)) as [?|_]; [lia|]. done.
Qed.

Lemma parse_loop_cons (n : Z) (c : ascii) (s : string) :
  strconv.parse_loop 10 cutoff maxVal n (String c s) =
  match strconv.parse_step 10 cutoff maxVal n c with
  | strconv.Scanned n1 => strconv.parse_loop 10 cutoff maxVal n1 s
  | strconv.Failed v e => strconv.Failed v e
  end.
Proof. reflexivity. Qed.

Lemma parse_loop_app (n : Z) (s1 s2 : string) :
  strconv.parse_loop 10 cutoff maxVal n (s1 +:+ s2) =
  match strconv.parse_loop 10 cutoff maxVal n s1 with
  | strconv.Scanned n1 => strconv.parse_loop 10 cutoff maxVal n1 s2
  | strconv.Failed v e => strconv.Failed v e
  end.
Proof.
  revert n. induction s1 as [|c s1 IH]; intros n; [done|].
  rewrite append_cons, !parse_loop_cons.
  destruct (strconv.parse_step 10 cutoff maxVal n c); [apply IH|done].
Qed.

(** What [fmtInteger] writes in front of [buf] is read back by the loop of
    [ParseUint] as the number written, appended in base ten to the value
    read so far. *)
Lemma fmtInteger_loop_parse (i : nat) : forall (u : Z) (buf : string),
  0 <= u < 10 ^ Z.of_nat (S i) ->
  exists pre : string,
    fmt.fmtInteger_loop (S i) u buf = Some (pre +:+ buf) /\
    pre <> EmptyString /\
    forall n, 0 <= n ->
      n * 10 ^ Z.of_nat (String.length pre) + u <= maxVal ->
      strconv.parse_loop 10 cutoff maxVal n pre =
      strconv.Scanned (n * 10 ^ Z.of_nat (String.length pre) + u).
Proof.
  assert (Hone : forall u, 0 <= u < 10 ->
            forall n, 0 <= n -> n * 10 ^ 1 + u <= maxVal ->
            strconv.parse_loop 10 cutoff maxVal n (String (fmt.digit u) "") =
            strconv.Scanned (n * 10 ^ 1 + u)).
  { intros u Hu n Hn Hmax. rewrite Z.pow_1_r in *.
    by rewrite parse_loop_cons, parse_step_digit by lia. }
  induction i as [|i IH]; intros u buf Hu.
  { change (10 ^ Z.of_nat 1) with 10 in Hu. simpl fmt.fmtInteger_loop.
    destruct (Z.leb_spec 10 u) as [?|_]; [lia|].
    exists (String (fmt.digit u) EmptyString). split; [done|]. split; [done|].
    apply Hone. lia. }
  rewrite Nat2Z.inj_succ, Z.pow_succ_r in Hu by lia.
  change (fmt.fmtInteger_loop (S (S i)) u buf) with
    (if 10 <=? u
     then fmt.fmtInteger_loop (S i) (u / 10)
            (String (fmt.digit (u - u / 10 * 10)) buf)
     else Some (String (fmt.digit u) buf)).
  destruct (Z.leb_spec 10 u) as [Hge|Hlt].
  - assert (Hq : 0 <= u / 10 < 10 ^ Z.of_nat (S i)).
    { split; [apply Z.div_pos; lia|]. apply Z.div_lt_upper_bound; lia. }
    destruct (IH (u / 10) (String (fmt.digit (u - u / 10 * 10)) buf) Hq)
      as (pre & Hloop & Hne & Hparse).
    exists (pre +:+ String (fmt.digit (u - u / 10 * 10)) EmptyString).
    split; [by rewrite Hloop, append_assoc|].
    split; [by destruct pre|].
    intros n Hn Hmax. rewrite length_append in *. simpl String.length in *.
    replace (Z.of_nat (String.length pre + 1))
      with (Z.succ (Z.of_nat (String.length pre))) in * by lia.
    rewrite Z.pow_succ_r in * by lia.
    pose proof (Z.pow_pos_nonneg 10 (Z.of_nat (String.length pre))) as Hpow.
    pose proof (Z.div_mod u 10) as Hdm. pose proof (Z.mod_pos_bound u 10).
    rewrite parse_loop_app, Hparse by nia.
    rewrite parse_loop_cons, parse_step_digit by nia.
    cbn [strconv.parse_loop]. f_equal. lia.
  - exists (String (fmt.digit u) EmptyString). split; [done|]. split; [done|].
    apply Hone. lia.
Qed.

End ParseDecimal.

(** [fmt.Sprint] never runs out of its buffer on a 64-bit value. *)
Lemma Sprint_uint32_total (x : Z) :
  0 <= x < 2 ^ 64 -> is_Some (fmt.Sprint_uint32 x).
Proof.
  intros Hx.
  destruct (fmtInteger_loop_parse 64 ltac:(lia) 67 x EmptyString)
    as (pre & Hpre & _).
  { split; [lia|]. eapply Z.lt_le_trans; [apply Hx|]. by vm_compute. }
  unfold fmt.Sprint_uint32, fmt.fmtInteger, fmt.intbuf_len.
  rewrite Hpre. eauto.
Qed.

(** The decimal text of a 32-bit value parses back to the value. *)
Lemma ParseUint_Sprint_uint32 (x : Z) :
  0 <= x < 2 ^ 32 ->
  exists text, fmt.Sprint_uint32 x = Some text /\
               strconv.ParseUint text 10 32 = (x, None).
Proof.
  intros Hx.
  destruct (fmtInteger_loop_parse 32 ltac:(lia) 67 x EmptyString)
    as (pre & Hpre & Hne & Hparse).
  { split; [lia|]. eapply Z.lt_le_trans; [apply Hx|]. by vm_compute. }
  rewrite append_empty_r in Hpre. exists pre. split; [exact Hpre|].
  unfold strconv.ParseUint. destruct (decide (pre = EmptyString)); [done|].
  rewrite (Hparse 0) by lia. f_equal; lia.
Qed.

(** ** [strconv.Quote] on base-64 text *)

Lemma appendEscapedRune_plain (c : ascii) :
  plain c = true -> strconv.appendEscapedRune c = String c EmptyString.
Proof.
  unfold plain, strconv.appendEscapedRune. intros H.
  apply andb_true_iff in H as [H Hq]. apply andb_true_iff in H as [_ Hp].
  apply negb_true_iff in Hq. by rewrite Hq, Hp.
Qed.

Lemma quote_body_plain (q : string -> string) (s : string) :
  all_plain s = true -> strconv.quote_body q s = s.
Proof.
  induction s as [|c s IH]; [done|]. cbn [all_plain strconv.quote_body].
  intros H. apply andb_true_iff in H as [Hc Hs].
  rewrite appendEscapedRune_plain, IH by done.
  unfold plain in Hc. apply andb_true_iff in Hc as [Hc _].
  apply andb_true_iff in Hc as [Hc _]. by rewrite Hc.
Qed.

Lemma Quote_plain (q : string -> string) (s : string) :
  all_plain s = true -> strconv.Quote q s = quoted s.
Proof. intros H. unfold strconv.Quote, quoted. by rewrite quote_body_plain. Qed.

Lemma enc_plain (k : Z) : plain (checksum.enc k) = true.
Proof.
  unfold checksum.enc. generalize (Z.to_nat k). intros n.
  assert (Hall : forallb plain (checksum.padChar :: checksum.encodeStd) = true)
    by (vm_compute; reflexivity).
  rewrite forallb_forall in Hall. apply Hall.
  destruct (nth_in_or_default n checksum.encodeStd checksum.padChar) as [Hin| ->].
  - by right.
  - by left.
Qed.

Lemma EncodeToString_plain (src : list Z) :
  all_plain (checksum.EncodeToString src) = true.
Proof.
  induction src as [src IH] using (induction_ltof1 _ (@length Z)).
  unfold ltof in IH.
  destruct src as [|a [|b [|c src]]];
    cbn [checksum.EncodeToString all_plain]; rewrite ?enc_plain; try done.
  apply IH. simpl. lia.
Qed.

(** The entity tag of a base-64 hash is the hash between double quotes. *)
Lemma Quote_EncodedMd5Hash (q : string -> string) (content : list Byte.byte) :
  strconv.Quote q (checksum.EncodedMd5Hash content) =
  quoted (checksum.EncodedMd5Hash content).
Proof. apply Quote_plain, EncodeToString_plain. Qed.

(** ** The loops that fill a fresh slice *)

Lemma range_assign_app {A B} (f : A -> B) (xs : list A) :
  forall pre : list (option B),
    fakestorage.range_assign f (length pre) xs
      (pre ++ replicate (length xs) None) =
    Some (pre ++ map (fun x => Some (f x)) xs).
Proof.
  induction xs as [|x xs IH]; intros pre; cbn [fakestorage.range_assign].
  { done. }
  cbn [length replicate map].
  destruct (decide (length pre < length (pre ++ None :: replicate (length xs) None))%nat)
    as [_|Hge]; [|rewrite length_app in Hge; simpl in Hge; lia].
  rewrite insert_app_r_alt by lia. rewrite Nat.sub_diag. cbn [insert list_insert].
  specialize (IH (pre ++ [Some (f x)])).
  rewrite length_app, <- !app_assoc in IH. cbn [length app] in IH.
  by rewrite Nat.add_1_r in IH.
Qed.

Lemma range_assign_make {A B} (f : A -> B) (xs : list A) :
  fakestorage.range_assign f 0 xs (elems_of (make (length xs))) =
  Some (map (fun x => Some (f x)) xs).
Proof. apply (range_assign_app f xs []). Qed.

Lemma fromBackendObjects_single (o : backend.Object.t) :
  fakestorage.fromBackendObjects [o] = [o].
Proof. reflexivity. Qed.

(** ** The runs of the handlers *)

Section Handlers.
Context {σ : Type} `{!backend.Storage σ}.
Variable getObjectACL : string -> list storage.ACLRule.t.
Variable quoteFromRuneSelf : string -> string.

#[local] Abbreviation WriteObject :=
  (fakestorage.WriteObject getObjectACL quoteFromRuneSelf).
#[local] Abbreviation reqObj_of :=
  (fakestorage.reqObj_of getObjectACL quoteFromRuneSelf).

Lemma Recv_first (w : fakestorage.World σ) :
  exists err,
    fakestorage.Recv w =
    (fakestorage.Returned (fakestorage.first_message w, err),
     fakestorage.received w).
Proof.
  unfold fakestorage.Recv, fakestorage.first_message.
  destruct (fakestorage.stream_in w); eauto.
Qed.

(** Every call of [WriteObject] leaves by one of the ways of
    [WriteObject_run]. *)
Lemma WriteObject_inv (w w' : fakestorage.World σ)
    (o : fakestorage.Outcome (option error)) :
  WriteObject w = (o, w') ->
  WriteObject_run getObjectACL quoteFromRuneSelf w o w'.
Proof.
  unfold fakestorage.WriteObject, fakestorage.bind.
  destruct (Recv_first w) as [rerr ->].
  destruct (pb.WriteObjectRequest.GetChecksummedData (fakestorage.first_message w))
    as [data|] eqn:Hdata; [|intros [= <- <-]; by apply run_no_data].
  destruct (pb.WriteObjectRequest.GetWriteObjectSpec (fakestorage.first_message w))
    as [spec|] eqn:Hspec; [|intros [= <- <-]; by eapply run_no_spec].
  destruct (pb.WriteObjectSpec.Resource spec) as [Resource|] eqn:Hres;
    [|intros [= <- <-]; by eapply run_nil_resource].
  cbn [fakestorage.deref fakestorage.ret fakestorage.panic].
  destruct (fakestorage.attach_crc32c _ _) as [reqObj|] eqn:Hreq;
    [|intros [= <- <-]; by eapply run_fmt_panic].
  cbn [fakestorage.deref fakestorage.ret fakestorage.panic].
  unfold fakestorage.call_backend.
  cbn [fakestorage.backend_state fakestorage.received].
  destruct (backend.CreateObject reqObj (fakestorage.backend_state w))
    as [[backendObj [err|]] st] eqn:Hcreate.
  { intros [= <- <-]. by eapply run_backend_error. }
  unfold fakestorage.index. rewrite fromBackendObjects_single.
  cbn [lookup list_lookup fakestorage.deref fakestorage.ret].
  destruct (strconv.ParseUint (backend.Object.Crc32c backendObj) 10 32)
    as [v [err|]] eqn:Hparse.
  { intros [= <- <-]. by eapply run_parse_error. }
  rewrite range_assign_make.
  cbn [fakestorage.deref fakestorage.ret]. unfold fakestorage.SendAndClose.
  intros [= <- <-]. by eapply run_sent.
Qed.

Lemma WriteObject_runs (w : fakestorage.World σ) :
  WriteObject_run getObjectACL quoteFromRuneSelf w
    (WriteObject w).1 (WriteObject w).2.
Proof. apply WriteObject_inv. by destruct (WriteObject w). Qed.

End Handlers.

(** ** The listing handlers *)

Section Listing.
Context {σ : Type} `{!backend.Storage σ}.

Lemma ListBuckets_ok (w : fakestorage.World σ) req buckets st :
  backend.ListBuckets (fakestorage.backend_state w) = ((buckets, None), st) ->
  fakestorage.ListBuckets req w =
  (fakestorage.Returned
     (Some {| pb.ListBucketsResponse.Buckets :=
                Slice (map (fun b => Some (fakestorage.listed_bucket b)) buckets) |},
      None),
   fakestorage.called w backend.ListBucketsCall None st).
Proof.
  intros Hb. unfold fakestorage.ListBuckets, fakestorage.bind,
    fakestorage.call_backend. rewrite Hb, range_assign_make. done.
Qed.

Lemma ListBuckets_err (w : fakestorage.World σ) req buckets e st :
  backend.ListBuckets (fakestorage.backend_state w) = ((buckets, Some e), st) ->
  fakestorage.ListBuckets req w =
  (fakestorage.Returned (None, Some e),
   fakestorage.called w backend.ListBucketsCall (Some e) st).
Proof.
  intros Hb. unfold fakestorage.ListBuckets, fakestorage.bind,
    fakestorage.call_backend. by rewrite Hb.
Qed.

Lemma ListObjects_ok (w : fakestorage.World σ) req objects st :
  backend.ListObjects (pb.ListObjectsRequest.Parent req)
    (pb.ListObjectsRequest.Prefix req) (pb.ListObjectsRequest.Versions req)
    (fakestorage.backend_state w) = ((objects, None), st) ->
  fakestorage.ListObjects req w =
  (fakestorage.Returned
     (Some {| pb.ListObjectsResponse.Objects :=
                Slice (map (fun o => Some (fakestorage.listed_object o)) objects) |},
      None),
   fakestorage.called w
     (backend.ListObjectsCall (pb.ListObjectsRequest.Parent req)
        (pb.ListObjectsRequest.Prefix req) (pb.ListObjectsRequest.Versions req))
     None st).
Proof.
  intros Hb. unfold fakestorage.ListObjects, fakestorage.bind,
    fakestorage.call_backend. rewrite Hb, range_assign_make. done.
Qed.

Lemma ListObjects_err (w : fakestorage.World σ) req objects e st :
  backend.ListObjects (pb.ListObjectsRequest.Parent req)
    (pb.ListObjectsRequest.Prefix req) (pb.ListObjectsRequest.Versions req)
    (fakestorage.backend_state w) = ((objects, Some e), st) ->
  fakestorage.ListObjects req w =
  (fakestorage.Returned (None, Some e),
   fakestorage.called w
     (backend.ListObjectsCall (pb.ListObjectsRequest.Parent req)
        (pb.ListObjectsRequest.Prefix req) (pb.ListObjectsRequest.Versions req))
     (Some e) st).
Proof.
  intros Hb. unfold fakestorage.ListObjects, fakestorage.bind,
    fakestorage.call_backend. by rewrite Hb.
Qed.

(** [CreateBucketWithOpts] panics on a backend error and returns
    otherwise. *)
Lemma CreateBucketWithOpts_outcome (w : fakestorage.World σ) opts err st :
  backend.CreateBucket (fakestorage.Name opts)
    (fakestorage.VersioningEnabled opts) (fakestorage.backend_state w)
    = (err, st) ->
  (fakestorage.CreateBucketWithOpts opts w).1 =
  match err with
  | Some _ => fakestorage.Panicked
  | None => fakestorage.Returned tt
  end.
Proof.
  intros Hb. unfold fakestorage.CreateBucketWithOpts, fakestorage.bind,
    fakestorage.call_backend. rewrite Hb. by destruct err.
Qed.

End Listing.

(** ** The upload handler *)

Lemma attach_crc32c_fields (o r : backend.Object.t) (crc : option Z) :
  fakestorage.attach_crc32c o crc = Some r ->
  backend.Object.Content r = backend.Object.Content o /\
  backend.Object.Md5Hash r = backend.Object.Md5Hash o /\
  backend.Object.Etag r = backend.Object.Etag o.
Proof.
  unfold fakestorage.attach_crc32c. destruct crc as [crc|].
  - destruct (fmt.Sprint_uint32 crc); [|done]. by intros [= <-].
  - by intros [= <-].
Qed.

Lemma attach_crc32c_absent (o : backend.Object.t) :
  fakestorage.attach_crc32c o None = Some o.
Proof. reflexivity. Qed.

Lemma attach_crc32c_total (o : backend.Object.t) (crc : option Z) :
  uint32_ptr crc -> is_Some (fakestorage.attach_crc32c o crc).
Proof.
  unfold fakestorage.attach_crc32c. destruct crc as [crc|]; [|eauto].
  cbn [uint32_ptr]. intros Hcrc.
  destruct (Sprint_uint32_total crc) as [text ->]; [lia|eauto].
Qed.

Lemma create_requests_app (l1 l2 : list backend.Event) :
  create_requests (l1 ++ l2) = create_requests l1 ++ create_requests l2.
Proof. apply omap_app. Qed.

Section Upload.
Context {σ : Type} `{!backend.Storage σ}.
Variable getObjectACL : string -> list storage.ACLRule.t.
Variable quoteFromRuneSelf : string -> string.

#[local] Abbreviation WriteObject :=
  (fakestorage.WriteObject getObjectACL quoteFromRuneSelf).
#[local] Abbreviation reqObj_of :=
  (fakestorage.reqObj_of getObjectACL quoteFromRuneSelf).

(** A run makes at most one backend call, a [CreateObject] whose object is
    the request built from the first message. *)
Lemma WriteObject_calls (w : fakestorage.World σ) :
  fakestorage.backend_calls (WriteObject w).2 = fakestorage.backend_calls w \/
  exists data spec Resource reqObj err,
    pb.WriteObjectRequest.GetChecksummedData (fakestorage.first_message w)
      = Some data /\
    pb.WriteObjectRequest.GetWriteObjectSpec (fakestorage.first_message w)
      = Some spec /\
    pb.WriteObjectSpec.Resource spec = Some Resource /\
    fakestorage.attach_crc32c
      (reqObj_of Resource (pb.WriteObjectSpec.PredefinedAcl spec)
         (pb.ChecksummedData.Content data))
      (pb.ChecksummedData.Crc32C data) = Some reqObj /\
    fakestorage.backend_calls (WriteObject w).2 =
    fakestorage.backend_calls w ++
      [{| backend.call := backend.CreateObjectCall reqObj;
          backend.returned := err |}].
Proof.
  destruct (WriteObject w) as [o w'] eqn:E.
  apply WriteObject_inv in E.
  destruct E; cbn; first [by left | right; do 5 eexists; split_and!; eauto].
Qed.

(** A valid first message reaches the backend: the run calls
    [CreateObject] once. *)
Lemma WriteObject_reaches_backend (w : fakestorage.World σ) data spec Resource :
  pb.WriteObjectRequest.GetChecksummedData (fakestorage.first_message w)
    = Some data ->
  pb.WriteObjectRequest.GetWriteObjectSpec (fakestorage.first_message w)
    = Some spec ->
  pb.WriteObjectSpec.Resource spec = Some Resource ->
  uint32_ptr (pb.ChecksummedData.Crc32C data) ->
  exists reqObj err,
    fakestorage.attach_crc32c
      (reqObj_of Resource (pb.WriteObjectSpec.PredefinedAcl spec)
         (pb.ChecksummedData.Content data))
      (pb.ChecksummedData.Crc32C data) = Some reqObj /\
    fakestorage.backend_calls (WriteObject w).2 =
    fakestorage.backend_calls w ++
      [{| backend.call := backend.CreateObjectCall reqObj;
          backend.returned := err |}].
Proof.
  intros Hdata Hspec Hres Hcrc.
  destruct (attach_crc32c_total
              (reqObj_of Resource (pb.WriteObjectSpec.PredefinedAcl spec)
                 (pb.ChecksummedData.Content data))
              (pb.ChecksummedData.Crc32C data) Hcrc) as [reqObj Hreq].
  destruct (WriteObject w) as [o w'] eqn:E.
  apply WriteObject_inv in E.
  destruct E; simplify_eq; cbn; eauto.
Qed.

(** A committed object whose checksum text parses is acknowledged: the
    response is handed to [SendAndClose], and what [SendAndClose] answers
    is what [WriteObject] returns. *)
Lemma WriteObject_acknowledges (w : fakestorage.World σ) data spec Resource
    reqObj created st v :
  pb.WriteObjectRequest.GetChecksummedData (fakestorage.first_message w)
    = Some data ->
  pb.WriteObjectRequest.GetWriteObjectSpec (fakestorage.first_message w)
    = Some spec ->
  pb.WriteObjectSpec.Resource spec = Some Resource ->
  fakestorage.attach_crc32c
    (reqObj_of Resource (pb.WriteObjectSpec.PredefinedAcl spec)
       (pb.ChecksummedData.Content data))
    (pb.ChecksummedData.Crc32C data) = Some reqObj ->
  backend.CreateObject reqObj (fakestorage.backend_state w)
    = ((created, None), st) ->
  strconv.ParseUint (backend.Object.Crc32c created) 10 32 = (v, None) ->
  WriteObject w =
  (fakestorage.Returned (fakestorage.send_result w),
   fakestorage.sent
     (fakestorage.called (fakestorage.received w)
        (backend.CreateObjectCall reqObj) None st)
     (acknowledgement created (fakestorage.uint32 v))).
Proof.
  intros Hdata Hspec Hres Hreq Hb Hparse.
  destruct (WriteObject w) as [o w'] eqn:E. apply WriteObject_inv in E.
  destruct E; simplify_eq; congruence.
Qed.

End Upload.

(** * The handlers against their specification *)

Section Claims.
Context {σ : Type} `{!backend.Storage σ}.
Variable getObjectACL : string -> list storage.ACLRule.t.
Variable quoteFromRuneSelf : string -> string.

#[local] Abbreviation WriteObject :=
  (fakestorage.WriteObject getObjectACL quoteFromRuneSelf).
#[local] Abbreviation reqObj_of :=
  (fakestorage.reqObj_of getObjectACL quoteFromRuneSelf).

(** A first message without data or without a spec is turned away before
    anything else happens. *)
Lemma WriteObject_turns_away (w : fakestorage.World σ) :
  pb.WriteObjectRequest.GetChecksummedData (fakestorage.first_message w) = None \/
  pb.WriteObjectRequest.GetWriteObjectSpec (fakestorage.first_message w) = None ->
  (WriteObject w).1 = fakestorage.Returned (Some errUnsupportedWriteOperation) /\
  fakestorage.backend_calls (WriteObject w).2 = fakestorage.backend_calls w /\
  fakestorage.backend_state (WriteObject w).2 = fakestorage.backend_state w /\
  fakestorage.stream_out (WriteObject w).2 = fakestorage.stream_out w.
Proof.
  intros Hmissing.
  destruct (WriteObject w) as [o w'] eqn:E. apply WriteObject_inv in E.
  destruct E; try done; destruct Hmissing; congruence.
Qed.

(** C1, as amended. When the first message received on the stream has no
    checksummed data (the field is absent, not merely empty) or no
    WriteObjectSpec, WriteObject returns the sentinel
    errUnsupportedWriteOperation; the backend is not called and its state
    is unchanged, and nothing is sent on the stream. *)
Theorem WriteObject_rejects_missing_data_or_spec (w : fakestorage.World σ) :
  pb.WriteObjectRequest.GetChecksummedData (fakestorage.first_message w) = None \/
  pb.WriteObjectRequest.GetWriteObjectSpec (fakestorage.first_message w) = None ->
  (WriteObject w).1 = fakestorage.Returned (Some errUnsupportedWriteOperation) /\
  fakestorage.backend_calls (WriteObject w).2 = fakestorage.backend_calls w /\
  fakestorage.backend_state (WriteObject w).2 = fakestorage.backend_state w /\
  fakestorage.stream_out (WriteObject w).2 = fakestorage.stream_out w.
Proof.
  intros Hmissing.
  destruct (WriteObject w) as [o w'] eqn:E. apply WriteObject_inv in E.
  destruct E as [Hdata|data Hdata Hspec|data spec Hdata Hspec _
                 |data spec Resource Hdata Hspec _ _
                 |data spec Resource reqObj backendObj err st Hdata Hspec _ _ _
                 |data spec Resource reqObj created v err st Hdata Hspec _ _ _ _
                 |data spec Resource reqObj created v st Hdata Hspec _ _ _ _].
  - done.
  - done.
  - destruct Hmissing; congruence.
  - destruct Hmissing; congruence.
  - destruct Hmissing; congruence.
  - destruct Hmissing; congruence.
  - destruct Hmissing; congruence.
Qed.

(** C3, as amended. The content committed to the backend through
    CreateObject is the payload of the first frame received on the stream:
    WriteObject receives once, so the stream it leaves is the one it found
    less its first message, and the one CreateObject call a run can make
    carries the first frame's bytes. *)
Theorem WriteObject_commits_first_frame (w : fakestorage.World σ) :
  fakestorage.stream_in (WriteObject w).2 = tail (fakestorage.stream_in w) /\
  exists new,
    fakestorage.backend_calls (WriteObject w).2 =
      fakestorage.backend_calls w ++ new /\
    (length new <= 1)%nat /\
    forall obj, obj ∈ create_requests new ->
      exists m, fakestorage.first_message w = Some m /\
                backend.Object.Content obj = frame_content m.
Proof.
  split.
  { destruct (WriteObject w) as [o w'] eqn:E. apply WriteObject_inv in E.
    by destruct E. }
  destruct (WriteObject_calls getObjectACL quoteFromRuneSelf w)
    as [Hsame|(data & spec & Resource & reqObj & err & Hdata & _ & _ & Hreq & Hcalls)].
  - exists []. rewrite app_nil_r. split; [done|]. split; [simpl; lia|].
    intros obj Hin. by apply elem_of_nil in Hin.
  - eexists. split; [exact Hcalls|]. split; [simpl; lia|].
    intros obj Hin. cbn in Hin. apply list_elem_of_singleton in Hin as ->.
    destruct (fakestorage.first_message w) as [m|] eqn:Hm; [|done].
    exists m. split; [done|]. unfold frame_content. rewrite Hdata.
    by apply attach_crc32c_fields in Hreq as (-> & _).
Qed.

(** C5. For a first message with data and a spec, the object handed to
    CreateObject has as Md5Hash the base-64 text of the MD5 digest of the
    payload, and as Etag that very text between double quotes; and when
    the spec names its resource (and the checksum, if any, is a uint32)
    there is exactly one such object. *)
Theorem WriteObject_request_md5_and_etag (w : fakestorage.World σ) data spec :
  pb.WriteObjectRequest.GetChecksummedData (fakestorage.first_message w)
    = Some data ->
  pb.WriteObjectRequest.GetWriteObjectSpec (fakestorage.first_message w)
    = Some spec ->
  exists new,
    fakestorage.backend_calls (WriteObject w).2 =
      fakestorage.backend_calls w ++ new /\
    (forall obj, obj ∈ create_requests new ->
       backend.Object.Md5Hash obj =
         checksum.EncodeToString
           (checksum.md5_sum
              (map checksum.byte_to_Z (pb.ChecksummedData.Content data))) /\
       backend.Object.Etag obj = quoted (backend.Object.Md5Hash obj)) /\
    (is_Some (pb.WriteObjectSpec.Resource spec) ->
     uint32_ptr (pb.ChecksummedData.Crc32C data) ->
     length (create_requests new) = 1%nat).
Proof.
  intros Hdata Hspec.
  destruct (WriteObject_calls getObjectACL quoteFromRuneSelf w)
    as [Hsame|(data' & spec' & Resource & reqObj & err & Hdata' & Hspec'
                 & Hres & Hreq & Hcalls)].
  - exists []. rewrite app_nil_r. split; [done|]. split.
    + intros obj Hin. by apply elem_of_nil in Hin.
    + intros [Resource Hres] Hcrc.
      destruct (WriteObject_reaches_backend getObjectACL quoteFromRuneSelf
                  w data spec Resource Hdata Hspec Hres Hcrc)
        as (reqObj & err & _ & Hcalls).
      rewrite Hsame in Hcalls. apply (f_equal length) in Hcalls.
      rewrite length_app in Hcalls. simpl in Hcalls. lia.
  - simplify_eq. eexists. split; [exact Hcalls|]. split; [|done].
    intros obj Hin. cbn in Hin. apply list_elem_of_singleton in Hin as ->.
    apply attach_crc32c_fields in Hreq as (_ & -> & ->).
    cbn [fakestorage.reqObj_of backend.Object.Md5Hash backend.Object.Etag].
    split; [done|]. apply Quote_EncodedMd5Hash.
Qed.

(** C6. Whenever WriteObject sends its response, the object in it has as
    size the number of bytes of the content of the object the backend
    committed, the one CreateObject returned for the one request of the
    run; the size stored in that object is not consulted. *)
Theorem WriteObject_response_size (w : fakestorage.World σ) resp :
  fakestorage.stream_out (WriteObject w).2 = fakestorage.stream_out w ++ [resp] ->
  exists reqObj created st r,
    fakestorage.backend_calls (WriteObject w).2 =
      fakestorage.backend_calls w ++
        [{| backend.call := backend.CreateObjectCall reqObj;
            backend.returned := None |}] /\
    backend.CreateObject reqObj (fakestorage.backend_state w)
      = ((created, None), st) /\
    resource_in resp = Some r /\
    pb.Object.Size r = Z.of_nat (length (backend.Object.Content created)).
Proof.
  intros Hout.
  destruct (WriteObject w) as [o w'] eqn:E. apply WriteObject_inv in E.
  destruct E; cbn in Hout;
    try (apply (f_equal length) in Hout; rewrite length_app in Hout;
         simpl in Hout; lia).
  apply app_inj_tail in Hout as [_ <-]. by eexists _, _, _, _.
Qed.

(** C10. When the first receive on the stream fails, WriteObject returns
    the sentinel errUnsupportedWriteOperation whatever error Recv reported;
    the backend is not called and nothing is sent. *)
Theorem WriteObject_discards_receive_error (w : fakestorage.World σ) :
  fakestorage.stream_in w = [] ->
  (fakestorage.Recv w).1 =
    fakestorage.Returned (None, Some (fakestorage.stream_end w)) /\
  (WriteObject w).1 = fakestorage.Returned (Some errUnsupportedWriteOperation) /\
  fakestorage.backend_calls (WriteObject w).2 = fakestorage.backend_calls w /\
  fakestorage.stream_out (WriteObject w).2 = fakestorage.stream_out w.
Proof.
  intros Hin. split.
  { unfold fakestorage.Recv. by rewrite Hin. }
  destruct (WriteObject_turns_away w) as (? & ? & ? & ?);
    [|done].
  left. unfold fakestorage.first_message. by rewrite Hin.
Qed.

(** C7. An error the backend returns from ListBuckets, ListObjects or
    CreateObject is the error the RPC returns, the same value; the handler
    makes that one backend call and no other, and WriteObject sends
    nothing. *)
Theorem backend_error_is_returned (w : fakestorage.World σ) (e : error) :
  (forall req buckets st,
     backend.ListBuckets (fakestorage.backend_state w)
       = ((buckets, Some e), st) ->
     fakestorage.ListBuckets req w =
     (fakestorage.Returned (None, Some e),
      fakestorage.called w backend.ListBucketsCall (Some e) st)) /\
  (forall req objects st,
     backend.ListObjects (pb.ListObjectsRequest.Parent req)
       (pb.ListObjectsRequest.Prefix req) (pb.ListObjectsRequest.Versions req)
       (fakestorage.backend_state w) = ((objects, Some e), st) ->
     fakestorage.ListObjects req w =
     (fakestorage.Returned (None, Some e),
      fakestorage.called w
        (backend.ListObjectsCall (pb.ListObjectsRequest.Parent req)
           (pb.ListObjectsRequest.Prefix req)
           (pb.ListObjectsRequest.Versions req))
        (Some e) st)) /\
  (forall data spec Resource reqObj backendObj st,
     pb.WriteObjectRequest.GetChecksummedData (fakestorage.first_message w)
       = Some data ->
     pb.WriteObjectRequest.GetWriteObjectSpec (fakestorage.first_message w)
       = Some spec ->
     pb.WriteObjectSpec.Resource spec = Some Resource ->
     fakestorage.attach_crc32c
       (reqObj_of Resource (pb.WriteObjectSpec.PredefinedAcl spec)
          (pb.ChecksummedData.Content data))
       (pb.ChecksummedData.Crc32C data) = Some reqObj ->
     backend.CreateObject reqObj (fakestorage.backend_state w)
       = ((backendObj, Some e), st) ->
     WriteObject w =
     (fakestorage.Returned (Some e),
      fakestorage.called (fakestorage.received w)
        (backend.CreateObjectCall reqObj) (Some e) st)).
Proof.
  split_and!.
  - intros req buckets st Hb. by eapply ListBuckets_err.
  - intros req objects st Hb. by eapply ListObjects_err.
  - intros data spec Resource reqObj backendObj st Hdata Hspec Hres Hreq Hb.
    destruct (WriteObject w) as [o w'] eqn:E. apply WriteObject_inv in E.
    destruct E; simplify_eq; congruence.
Qed.

(** C8. ListObjects calls the backend's ListObjects with the request's
    parent, prefix and versions as they are, and answers with the
    backend's objects in the backend's order, as many as the backend
    returned, each reduced to its name. *)
Theorem ListObjects_delegates_and_projects (w : fakestorage.World σ) req
    objects st :
  backend.ListObjects (pb.ListObjectsRequest.Parent req)
    (pb.ListObjectsRequest.Prefix req) (pb.ListObjectsRequest.Versions req)
    (fakestorage.backend_state w) = ((objects, None), st) ->
  exists entries,
    fakestorage.ListObjects req w =
    (fakestorage.Returned
       (Some {| pb.ListObjectsResponse.Objects := Slice entries |}, None),
     fakestorage.called w
       (backend.ListObjectsCall (pb.ListObjectsRequest.Parent req)
          (pb.ListObjectsRequest.Prefix req)
          (pb.ListObjectsRequest.Versions req))
       None st) /\
    length entries = length objects /\
    forall i object, objects !! i = Some object ->
      entries !! i =
      Some (Some {| pb.Object.Name := backend.Object.Name object;
                    pb.Object.Bucket := ""; pb.Object.Size := 0;
                    pb.Object.Generation := 0; pb.Object.ContentType := "";
                    pb.Object.ContentEncoding := "";
                    pb.Object.CreateTime := None; pb.Object.DeleteTime := None;
                    pb.Object.UpdateTime := None; pb.Object.Metadata := ∅;
                    pb.Object.Checksums := None; pb.Object.Acl := nil_slice |}).
Proof.
  intros Hb. eexists. split; [by apply ListObjects_ok|].
  split; [by rewrite length_map|].
  intros i object Hi. by rewrite list_lookup_fmap, Hi.
Qed.

(** C9. When the backend lists no bucket and reports no error, ListBuckets
    answers with a response whose bucket slice is there (not nil) and has
    length zero. *)
Theorem ListBuckets_empty_is_not_nil (w : fakestorage.World σ) req st :
  backend.ListBuckets (fakestorage.backend_state w) = (([], None), st) ->
  exists resp,
    (fakestorage.ListBuckets req w).1 = fakestorage.Returned (Some resp, None) /\
    pb.ListBucketsResponse.Buckets resp = Slice [] /\
    is_nil (pb.ListBucketsResponse.Buckets resp) = false /\
    len (pb.ListBucketsResponse.Buckets resp) = 0%nat.
Proof.
  intros Hb. eexists. rewrite (ListBuckets_ok w req [] st Hb). by split_and!.
Qed.

End Claims.

(** C4. A uint32 written as decimal text by the encoding that attaches the
    frame's checksum to the write request ([fmt.Sprint]) and read back by
    the parsing that builds the response ([strconv.ParseUint] in base 10
    at 32 bits, then the conversion to uint32) is the value written; zero
    and 4294967295 included. *)
Theorem crc32c_text_round_trip (X : Z) (reqObj : backend.Object.t) :
  0 <= X < 2 ^ 32 ->
  exists text,
    fakestorage.attach_crc32c reqObj (Some X)
      = Some (backend.Object.with_Crc32c reqObj text) /\
    strconv.ParseUint text 10 32 = (X, None) /\
    fakestorage.uint32 X = X.
Proof.
  intros HX. destruct (ParseUint_Sprint_uint32 X HX) as (text & Htext & Hparse).
  exists text. unfold fakestorage.attach_crc32c. rewrite Htext.
  split_and!; [done..|]. unfold fakestorage.uint32. apply Z.mod_small. lia.
Qed.

(** ** An upload without a checksum *)

Section NoChecksum.
Context {σ : Type} `{!backend.Storage σ}.
Variable getObjectACL : string -> list storage.ACLRule.t.
Variable quoteFromRuneSelf : string -> string.

(** Without a checksum on the frame the request goes out with an empty
    [Crc32c]; a backend that commits the object with that field as it came
    makes [WriteObject] fail on parsing it, after the object is stored and
    before any response is sent. *)
Lemma WriteObject_empty_crc32c_text (w : fakestorage.World σ) data spec
    Resource created st :
  pb.WriteObjectRequest.GetChecksummedData (fakestorage.first_message w)
    = Some data ->
  pb.WriteObjectRequest.GetWriteObjectSpec (fakestorage.first_message w)
    = Some spec ->
  pb.WriteObjectSpec.Resource spec = Some Resource ->
  pb.ChecksummedData.Crc32C data = None ->
  backend.CreateObject
    (fakestorage.reqObj_of getObjectACL quoteFromRuneSelf Resource
       (pb.WriteObjectSpec.PredefinedAcl spec) (pb.ChecksummedData.Content data))
    (fakestorage.backend_state w) = ((created, None), st) ->
  backend.Object.Crc32c created = EmptyString ->
  fakestorage.WriteObject getObjectACL quoteFromRuneSelf w =
  (fakestorage.Returned (Some (NumError "ParseUint" "" ErrSyntax)),
   fakestorage.called (fakestorage.received w)
     (backend.CreateObjectCall
        (fakestorage.reqObj_of getObjectACL quoteFromRuneSelf Resource
           (pb.WriteObjectSpec.PredefinedAcl spec)
           (pb.ChecksummedData.Content data)))
     None st).
Proof.
  intros Hdata Hspec Hres Hcrc Hb Hempty.
  destruct (fakestorage.WriteObject getObjectACL quoteFromRuneSelf w)
    as [o w'] eqn:E.
  apply WriteObject_inv in E.
  destruct E; simplify_eq; rewrite ?Hcrc in *; cbn in *; simplify_eq;
    [congruence|..];
    match goal with
    | H : backend.CreateObject _ _ = (?c, None, ?s),
      Hp : strconv.ParseUint (backend.Object.Crc32c ?c) _ _ = _ |- _ =>
        assert (c = created) by congruence; assert (s = st) by congruence;
        subst; rewrite Hempty in Hp; vm_compute in Hp; by simplify_eq
    end.
Qed.

End NoChecksum.

(** The advertised URL: the external address if set, else the listen
    address, else empty. *)
Lemma URL_precedence (s : fakestorage.StorageServer) :
  (fakestorage.externalURL s <> EmptyString ->
   fakestorage.URL s = fakestorage.externalURL s) /\
  (fakestorage.externalURL s = EmptyString ->
   fakestorage.URL s = fakestorage.url s).
Proof.
  unfold fakestorage.URL. split; intros Hext.
  - destruct (String.eqb_spec (fakestorage.externalURL s) ""); done.
  - rewrite Hext. cbn.
    destruct (String.eqb_spec (fakestorage.url s) "") as [->|]; done.
Qed.

(** * Runs on the backend double *)

Example sentinel_text :
  error_text errUnsupportedWriteOperation = "unsupported write operation"%string.
Proof. reflexivity. Qed.

(** A spec without data is turned away like data without a spec. *)
Example spec_without_data_rejected :
  spy.WriteObject (spy.world spy.empty [spy.spec_without_data]) =
  (fakestorage.Returned (Some errUnsupportedWriteOperation),
   spy.world spy.empty []).
Proof. vm_compute. reflexivity. Qed.

(** The specification's example: the upload of [hello] reaches the backend
    with the base-64 MD5 of [hello] and that text between quotes. *)
Example hello_request :
  exists obj st,
    fakestorage.backend_calls
      (spy.WriteObject (spy.world spy.empty [spy.hello (Some 7)])).2 =
      [{| backend.call := backend.CreateObjectCall obj;
          backend.returned := None |}] /\
    fakestorage.backend_state
      (spy.WriteObject (spy.world spy.empty [spy.hello (Some 7)])).2 = st /\
    spy.objects st = [obj] /\
    backend.Object.BucketName obj = "b" /\
    backend.Object.Name obj = "o" /\
    backend.Object.Content obj = list_byte_of_string "hello" /\
    backend.Object.Md5Hash obj = "XUFAKrxLKna5cZ2REBfFkg==" /\
    backend.Object.Etag obj = quoted "XUFAKrxLKna5cZ2REBfFkg==" /\
    backend.Object.Crc32c obj = "7".
Proof. vm_compute. eexists _, _. by split_and!. Qed.

Example md5_of_nothing :
  checksum.EncodedMd5Hash [] = "1B2M2Y8AsgTpgAmY7PhCfg=="%string.
Proof. vm_compute. reflexivity. Qed.

Example md5_across_blocks :
  checksum.EncodedMd5Hash (replicate 70 Byte.x61) = "D1xsTnQL/MCMPCbMsmc9Rg=="%string.
Proof. vm_compute. reflexivity. Qed.

Example ParseUint_rejects :
  strconv.ParseUint "" 10 32 = (0, Some (NumError "ParseUint" "" ErrSyntax)) /\
  strconv.ParseUint "4294967296" 10 32 =
    (4294967295, Some (NumError "ParseUint" "4294967296" ErrRange)) /\
  strconv.ParseUint "12a" 10 32 = (0, Some (NumError "ParseUint" "12a" ErrSyntax)).
Proof. vm_compute. by split_and!. Qed.

(** C1, the claim as written fails: a first message whose data is present
    with no bytes in it, and whose spec is present, lacks a non-empty data
    payload, and yet WriteObject does not return the sentinel; it calls
    CreateObject once and acknowledges the upload. *)
Lemma WriteObject_accepts_empty_payload :
  carries_nonempty_data
    (fakestorage.first_message (spy.world spy.empty [spy.no_bytes])) = false /\
  (spy.WriteObject (spy.world spy.empty [spy.no_bytes])).1
    = fakestorage.Returned None /\
  (spy.WriteObject (spy.world spy.empty [spy.no_bytes])).1
    <> fakestorage.Returned (Some errUnsupportedWriteOperation) /\
  length (create_requests
            (fakestorage.backend_calls
               (spy.WriteObject (spy.world spy.empty [spy.no_bytes])).2)) = 1%nat /\
  length (fakestorage.stream_out
            (spy.WriteObject (spy.world spy.empty [spy.no_bytes])).2) = 1%nat.
Proof. vm_compute. by split_and!. Qed.

Lemma WriteObject_rejects_missing_data_or_spec_witness :
  (pb.WriteObjectRequest.GetChecksummedData
     (fakestorage.first_message (spy.world spy.empty [spy.data_without_spec]))
     = None \/
   pb.WriteObjectRequest.GetWriteObjectSpec
     (fakestorage.first_message (spy.world spy.empty [spy.data_without_spec]))
     = None) /\
  (spy.WriteObject (spy.world spy.empty [spy.data_without_spec])).1
    = fakestorage.Returned (Some errUnsupportedWriteOperation) /\
  fakestorage.backend_calls
    (spy.WriteObject (spy.world spy.empty [spy.data_without_spec])).2 = [] /\
  fakestorage.backend_state
    (spy.WriteObject (spy.world spy.empty [spy.data_without_spec])).2
    = spy.empty /\
  fakestorage.stream_out
    (spy.WriteObject (spy.world spy.empty [spy.data_without_spec])).2 = [].
Proof.
  split; [right; reflexivity|].
  apply (WriteObject_rejects_missing_data_or_spec spy.getObjectACL (fun s => s)
           (spy.world spy.empty [spy.data_without_spec])).
  right; reflexivity.
Defined.

(** C2, the code at the failing input: the upload of [hello] without a
    checksum goes to the backend with an empty [Crc32c], the object is
    stored, and WriteObject returns the syntax error of
    [strconv.ParseUint] on the empty text without sending a response. *)
Theorem WriteObject_without_crc32c_fails :
  (spy.WriteObject (spy.world spy.empty [spy.hello None])).1 =
    fakestorage.Returned (Some (NumError "ParseUint" "" ErrSyntax)) /\
  map backend.Object.Crc32c
    (create_requests
       (fakestorage.backend_calls
          (spy.WriteObject (spy.world spy.empty [spy.hello None])).2))
    = [EmptyString] /\
  length (spy.objects
            (fakestorage.backend_state
               (spy.WriteObject (spy.world spy.empty [spy.hello None])).2))
    = 1%nat /\
  fakestorage.stream_out
    (spy.WriteObject (spy.world spy.empty [spy.hello None])).2 = [].
Proof. vm_compute. by split_and!. Qed.

(** C3, the claim as written fails: of an upload in two frames, [hel] then
    [lo], the object handed to CreateObject holds [hel], not [hello], and
    the second frame is still on the stream when WriteObject returns. *)
Lemma WriteObject_ignores_later_frames :
  stream_content spy.two_frames = list_byte_of_string "hello" /\
  map backend.Object.Content
    (create_requests
       (fakestorage.backend_calls
          (spy.WriteObject (spy.world spy.empty spy.two_frames)).2))
    = [list_byte_of_string "hel"] /\
  map backend.Object.Content
    (create_requests
       (fakestorage.backend_calls
          (spy.WriteObject (spy.world spy.empty spy.two_frames)).2))
    <> [stream_content spy.two_frames] /\
  fakestorage.stream_in (spy.WriteObject (spy.world spy.empty spy.two_frames)).2
    = tail spy.two_frames.
Proof. vm_compute. by split_and!. Qed.

Lemma crc32c_text_round_trip_witness :
  0 <= 4294967295 < 2 ^ 32 /\
  exists text,
    fakestorage.attach_crc32c spy.zero_object (Some 4294967295)
      = Some (backend.Object.with_Crc32c spy.zero_object text) /\
    strconv.ParseUint text 10 32 = (4294967295, None) /\
    fakestorage.uint32 4294967295 = 4294967295.
Proof.
  split; [lia|]. apply (crc32c_text_round_trip 4294967295 spy.zero_object). lia.
Defined.

Example crc32c_text_of_zero :
  fmt.Sprint_uint32 0 = Some "0"%string /\
  strconv.ParseUint "0" 10 32 = (0, None) /\
  fmt.Sprint_uint32 4294967295 = Some "4294967295"%string /\
  strconv.ParseUint "4294967295" 10 32 = (4294967295, None).
Proof. vm_compute. by split_and!. Qed.

Lemma WriteObject_request_md5_and_etag_witness :
  pb.WriteObjectRequest.GetChecksummedData
    (fakestorage.first_message (spy.world spy.empty [spy.hello (Some 7)]))
    = Some (spy.checksummed "hello" (Some 7)) /\
  pb.WriteObjectRequest.GetWriteObjectSpec
    (fakestorage.first_message (spy.world spy.empty [spy.hello (Some 7)]))
    = Some (spy.write_spec "b" "o") /\
  exists new,
    fakestorage.backend_calls
      (fakestorage.WriteObject spy.getObjectACL (fun s => s)
         (spy.world spy.empty [spy.hello (Some 7)])).2
      = fakestorage.backend_calls (spy.world spy.empty [spy.hello (Some 7)])
        ++ new /\
    (forall obj, obj ∈ create_requests new ->
       backend.Object.Md5Hash obj =
         checksum.EncodeToString
           (checksum.md5_sum
              (map checksum.byte_to_Z
                 (pb.ChecksummedData.Content (spy.checksummed "hello" (Some 7))))) /\
       backend.Object.Etag obj = quoted (backend.Object.Md5Hash obj)) /\
    (is_Some (pb.WriteObjectSpec.Resource (spy.write_spec "b" "o")) ->
     uint32_ptr (pb.ChecksummedData.Crc32C (spy.checksummed "hello" (Some 7))) ->
     length (create_requests new) = 1%nat).
Proof.
  split; [reflexivity|]. split; [reflexivity|].
  exact (WriteObject_request_md5_and_etag spy.getObjectACL (fun s => s)
           (spy.world spy.empty [spy.hello (Some 7)])
           (spy.checksummed "hello" (Some 7)) (spy.write_spec "b" "o")
           eq_refl eq_refl).
Defined.

Lemma WriteObject_response_size_witness :
  fakestorage.stream_out
    (fakestorage.WriteObject spy.getObjectACL (fun s => s)
       (spy.world spy.empty [spy.hello (Some 7)])).2
    = fakestorage.stream_out (spy.world spy.empty [spy.hello (Some 7)])
      ++ [acknowledgement (spy.committed "hello" "7") 7] /\
  exists reqObj created st r,
    fakestorage.backend_calls
      (fakestorage.WriteObject spy.getObjectACL (fun s => s)
         (spy.world spy.empty [spy.hello (Some 7)])).2 =
      fakestorage.backend_calls (spy.world spy.empty [spy.hello (Some 7)]) ++
        [{| backend.call := backend.CreateObjectCall reqObj;
            backend.returned := None |}] /\
    backend.CreateObject reqObj
      (fakestorage.backend_state (spy.world spy.empty [spy.hello (Some 7)]))
      = ((created, None), st) /\
    resource_in (acknowledgement (spy.committed "hello" "7") 7) = Some r /\
    pb.Object.Size r = Z.of_nat (length (backend.Object.Content created)).
Proof.
  split; [vm_compute; reflexivity|].
  apply (WriteObject_response_size spy.getObjectACL (fun s => s)
           (spy.world spy.empty [spy.hello (Some 7)])
           (acknowledgement (spy.committed "hello" "7") 7)).
  vm_compute; reflexivity.
Defined.

(** The stored size and the length of the content may differ: the double
    commits the request with its [Size] of zero, and the response says
    five. *)
Example stored_size_is_not_read :
  exists created r,
    spy.objects
      (fakestorage.backend_state
         (spy.WriteObject (spy.world spy.empty [spy.hello (Some 7)])).2)
      = [created] /\
    backend.Object.Size created = 0 /\
    omap resource_in
      (fakestorage.stream_out
         (spy.WriteObject (spy.world spy.empty [spy.hello (Some 7)])).2) = [r] /\
    pb.Object.Size r = 5.
Proof. vm_compute. eexists _, _. by split_and!. Qed.

Lemma backend_error_is_returned_witness :
  fakestorage.ListBuckets {| pb.ListBucketsRequest.Project := "p" |}
    (spy.world (spy.failing spy.unavailable) [spy.hello (Some 7)]) =
  (fakestorage.Returned (None, Some spy.unavailable),
   fakestorage.called
     (spy.world (spy.failing spy.unavailable) [spy.hello (Some 7)])
     backend.ListBucketsCall (Some spy.unavailable)
     (spy.failing spy.unavailable)) /\
  (fakestorage.ListObjects
     {| pb.ListObjectsRequest.Parent := "b"; pb.ListObjectsRequest.Prefix := "img/";
        pb.ListObjectsRequest.Versions := false |}
     (spy.world (spy.failing spy.unavailable) [spy.hello (Some 7)])).1 =
  fakestorage.Returned (None, Some spy.unavailable) /\
  (spy.WriteObject
     (spy.world (spy.failing spy.unavailable) [spy.hello (Some 7)])).1 =
  fakestorage.Returned (Some spy.unavailable).
Proof.
  destruct (backend_error_is_returned spy.getObjectACL (fun s => s)
              (spy.world (spy.failing spy.unavailable) [spy.hello (Some 7)])
              spy.unavailable) as (HB & HO & HW).
  split; [|split].
  - apply (HB _ []). reflexivity.
  - rewrite (HO _ [] (spy.failing spy.unavailable)); reflexivity.
  - unfold spy.WriteObject. erewrite HW; reflexivity.
Defined.

Lemma ListObjects_delegates_and_projects_witness :
  backend.ListObjects "b" "img/" false spy.listing_state
  = (([spy.stored "img/z.png"; spy.stored "img/a.png"], None),
     spy.listing_state) /\
  exists entries,
    (fakestorage.ListObjects
       {| pb.ListObjectsRequest.Parent := "b";
          pb.ListObjectsRequest.Prefix := "img/";
          pb.ListObjectsRequest.Versions := false |}
       (spy.world spy.listing_state [])).1 =
    fakestorage.Returned
      (Some {| pb.ListObjectsResponse.Objects := Slice entries |}, None) /\
    length entries = 2%nat /\
    map (fun entry => pb.Object.Name <$> entry) entries
      = [Some "img/z.png"%string; Some "img/a.png"%string].
Proof.
  split; [reflexivity|].
  destruct (@ListObjects_delegates_and_projects spy.state spy.storage
              (spy.world spy.listing_state [])
              {| pb.ListObjectsRequest.Parent := "b";
                 pb.ListObjectsRequest.Prefix := "img/";
                 pb.ListObjectsRequest.Versions := false |}
              [spy.stored "img/z.png"; spy.stored "img/a.png"]
              spy.listing_state eq_refl) as (entries & Hrun & Hlen & Hentries).
  exists entries. rewrite Hrun. split; [reflexivity|]. split; [exact Hlen|].
  pose proof (Hentries 0%nat _ eq_refl) as H0.
  pose proof (Hentries 1%nat _ eq_refl) as H1.
  destruct entries as [|e0 [|e1 [|e2 entries]]]; try discriminate Hlen.
  injection H0 as ->. injection H1 as ->. reflexivity.
Defined.

Lemma ListBuckets_empty_is_not_nil_witness :
  backend.ListBuckets spy.empty = (([], None), spy.empty) /\
  exists resp,
    (fakestorage.ListBuckets {| pb.ListBucketsRequest.Project := "p" |}
       (spy.world spy.empty [])).1 = fakestorage.Returned (Some resp, None) /\
    pb.ListBucketsResponse.Buckets resp = Slice [] /\
    is_nil (pb.ListBucketsResponse.Buckets resp) = false /\
    len (pb.ListBucketsResponse.Buckets resp) = 0%nat.
Proof.
  split; [reflexivity|].
  apply (ListBuckets_empty_is_not_nil (spy.world spy.empty []) _ spy.empty).
  reflexivity.
Defined.

Lemma WriteObject_discards_receive_error_witness :
  fakestorage.stream_in (spy.world spy.empty []) = [] /\
  (fakestorage.Recv (spy.world spy.empty [])).1 =
    fakestorage.Returned (None, Some (OtherError "EOF")) /\
  (spy.WriteObject (spy.world spy.empty [])).1
    = fakestorage.Returned (Some errUnsupportedWriteOperation) /\
  fakestorage.backend_calls (spy.WriteObject (spy.world spy.empty [])).2 = [] /\
  fakestorage.stream_out (spy.WriteObject (spy.world spy.empty [])).2 = [].
Proof.
  split; [reflexivity|].
  apply (WriteObject_discards_receive_error spy.getObjectACL (fun s => s)
           (spy.world spy.empty [])).
  reflexivity.
Defined.

(** * Further properties of the code *)

(** ** [strconv.ParseUint] in base ten, on any text *)

Lemma is_digit_char (c : ascii) :
  is_digit c = true ->
  c = fmt.digit (strconv.byte_val c - 48) /\ 0 <= strconv.byte_val c - 48 <= 9.
Proof.
  unfold is_digit. intros H. apply andb_true_iff in H as [Hlo Hhi].
  apply Z.leb_le in Hlo, Hhi. split; [|lia].
  unfold fmt.digit, strconv.byte_val in *.
  replace (48 + Z.to_nat (Z.of_nat (nat_of_ascii c) - 48))%nat
    with (nat_of_ascii c) by lia.
  by rewrite ascii_nat_embedding.
Qed.

Lemma decimal_from_ge (s : string) : forall n,
  0 <= n -> all_digits s = true -> n <= decimal_from n s.
Proof.
  induction s as [|c s IH]; intros n Hn Hs; cbn [decimal_from]; [lia|].
  cbn [all_digits] in Hs. apply andb_true_iff in Hs as [Hc Hs].
  apply is_digit_char in Hc as [_ Hc].
  etrans; [|apply IH; [lia|done]]. lia.
Qed.

Section ParseText.
Variable bitSize : Z.
Hypothesis bitSize_range : 1 <= bitSize <= 64.

Let cutoff := strconv.maxUint64 / 10 + 1.
Let maxVal := 2 ^ bitSize - 1.

(** A byte that is no decimal digit is a syntax error, whatever was read
    before it. *)
Lemma parse_step_not_digit (n : Z) (c : ascii) :
  is_digit c = false ->
  strconv.parse_step 10 cutoff maxVal n c = strconv.Failed 0 ErrSyntax.
Proof.
  unfold is_digit, strconv.parse_step. intros ->.
  destruct ((97 <=? strconv.lower (strconv.byte_val c))
            && (strconv.lower (strconv.byte_val c) <=? 122)) eqn:Hletter;
    [|done].
  apply andb_true_iff in Hletter as [Hlo _]. apply Z.leb_le in Hlo.
  destruct (Z.leb_spec 10 (strconv.lower (strconv.byte_val c) - 97 + 10));
    [done|lia].
Qed.

(** A digit that takes the value past [maxVal] is a range error. *)
Lemma parse_step_overflow (n d : Z) :
  0 <= n <= maxVal -> 0 <= d <= 9 -> maxVal < n * 10 + d ->
  strconv.parse_step 10 cutoff maxVal n (fmt.digit d) =
  strconv.Failed maxVal ErrRange.
Proof.
  intros Hn Hd Hover.
  pose proof (maxVal_le_maxUint64 bitSize bitSize_range) as Hm.
  fold maxVal in Hm. unfold strconv.maxUint64 in Hm.
  unfold strconv.parse_step. rewrite byte_val_digit by done.
  replace ((48 <=? 48 + d) && (48 + d <=? 57)) with true
    by (symmetry; apply andb_true_iff; lia).
  replace (48 + d - 48) with d by lia.
  destruct (Z.leb_spec 10 d) as [?|_]; [lia|].
  subst cutoff. unfold strconv.maxUint64.
  change ((2 ^ 64 - 1) / 10 + 1) with 1844674407370955162.
  destruct (Z.leb_spec 1844674407370955162 n) as [_|Hc]; [done|].
  unfold strconv.wrap64. rewrite (Z.mod_small (n * 10)) by lia.
  destruct (Z.lt_ge_cases (n * 10 + d) (2 ^ 64)) as [Hfit|Hwrap].
  - rewrite (Z.mod_small (n * 10 + d)) by lia.
    destruct (Z.ltb_spec maxVal (n * 10 + d)) as [_|?]; [|lia].
    by rewrite orb_true_r.
  - replace ((n * 10 + d) mod 2 ^ 64) with (n * 10 + d - 2 ^ 64).
    2:{ apply Z.mod_unique with 1; lia. }
    destruct (Z.ltb_spec (n * 10 + d - 2 ^ 64) (n * 10)) as [_|?]; [done|lia].
Qed.

(** On decimal digits the loop reads the number they denote, or stops
    with a range error once that number is past [maxVal]. *)
Lemma parse_loop_digits (s : string) : forall n,
  0 <= n <= maxVal -> all_digits s = true ->
  strconv.parse_loop 10 cutoff maxVal n s =
  if decimal_from n s <=? maxVal then strconv.Scanned (decimal_from n s)
  else strconv.Failed maxVal ErrRange.
Proof.
  induction s as [|c s IH]; intros n Hn Hs.
  { cbn [strconv.parse_loop decimal_from].
    destruct (Z.leb_spec n maxVal); [done|lia]. }
  cbn [all_digits] in Hs. apply andb_true_iff in Hs as [Hc Hs].
  apply is_digit_char in Hc as [Hc Hd].
  rewrite (parse_loop_cons bitSize). fold cutoff maxVal.
  cbn [decimal_from]. set (d := strconv.byte_val c - 48) in *.
  rewrite Hc.
  destruct (Z.le_gt_cases (n * 10 + d) maxVal) as [Hfit|Hover].
  - rewrite (parse_step_digit bitSize bitSize_range) by (fold maxVal; lia).
    fold cutoff maxVal. apply IH; [lia|done].
  - rewrite parse_step_overflow by lia.
    pose proof (decimal_from_ge s (n * 10 + d) ltac:(lia) Hs).
    destruct (Z.leb_spec (decimal_from (n * 10 + d) s) maxVal); [lia|done].
Qed.

(** Text with a byte that is no digit never scans. *)
Lemma parse_loop_not_digits (s : string) : forall n,
  all_digits s = false ->
  exists v e, strconv.parse_loop 10 cutoff maxVal n s = strconv.Failed v e.
Proof.
  induction s as [|c s IH]; intros n Hs; [done|].
  rewrite (parse_loop_cons bitSize). fold cutoff maxVal.
  cbn [all_digits] in Hs.
  destruct (is_digit c) eqn:Hc.
  - destruct (strconv.parse_step 10 cutoff maxVal n c); [apply IH|]; eauto.
  - rewrite parse_step_not_digit by done. eauto.
Qed.

End ParseText.

(** [ParseUint] at 32 bits succeeds exactly on non-empty decimal digits
    that denote a value below 2^32, and then returns that value. *)
Lemma ParseUint_ok_iff (s : string) (n : Z) :
  strconv.ParseUint s 10 32 = (n, None) <->
  s <> EmptyString /\ all_digits s = true /\ decimal_value s = n /\ n < 2 ^ 32.
Proof.
  unfold strconv.ParseUint, decimal_value.
  destruct (decide (s = EmptyString)) as [->|Hne].
  { split; [done|]. by intros [? _]. }
  destruct (all_digits s) eqn:Hs.
  - rewrite (parse_loop_digits 32 ltac:(lia) s 0 ltac:(lia) Hs).
    destruct (Z.leb_spec (decimal_from 0 s) (2 ^ 32 - 1)).
    + split; [intros [= <-]|intros (_ & _ & <- & _)]; [|done].
      split_and!; [done..|lia].
    + split; [done|]. intros (_ & _ & <- & ?). lia.
  - destruct (parse_loop_not_digits 32 s 0 Hs) as (v & e & ->).
    split; [done|]. by intros (_ & ? & _).
Qed.

(** On digits out of range [ParseUint] reports a range error. *)
Lemma ParseUint_out_of_range (s : string) :
  s <> EmptyString -> all_digits s = true -> 2 ^ 32 <= decimal_value s ->
  strconv.ParseUint s 10 32 =
  (4294967295, Some (NumError "ParseUint" s ErrRange)).
Proof.
  intros Hne Hs Hbig. unfold strconv.ParseUint, decimal_value in *.
  destruct (decide (s = EmptyString)); [done|].
  rewrite (parse_loop_digits 32 ltac:(lia) s 0 ltac:(lia) Hs).
  destruct (Z.leb_spec (decimal_from 0 s) (2 ^ 32 - 1)); [lia|done].
Qed.

(** On text with a byte that is no digit [ParseUint] fails. *)
Lemma ParseUint_not_digits (s : string) :
  all_digits s = false ->
  exists v e, strconv.ParseUint s 10 32 = (v, Some e).
Proof.
  intros Hs. unfold strconv.ParseUint.
  destruct (decide (s = EmptyString)); [eauto|].
  destruct (parse_loop_not_digits 32 s 0 Hs) as (v & e & ->). eauto.
Qed.

(** ** More on the upload handler *)

Section UploadMore.
Context {σ : Type} `{!backend.Storage σ}.
Variable getObjectACL : string -> list storage.ACLRule.t.
Variable quoteFromRuneSelf : string -> string.

#[local] Abbreviation WriteObject :=
  (fakestorage.WriteObject getObjectACL quoteFromRuneSelf).
#[local] Abbreviation reqObj_of :=
  (fakestorage.reqObj_of getObjectACL quoteFromRuneSelf).

(** X1. A first message with data and a spec whose resource is nil makes
    WriteObject panic (the dereference of spec.Resource) after the one
    receive: the backend is not called and nothing is sent. *)
Theorem WriteObject_nil_resource_panics (w : fakestorage.World σ) data spec :
  pb.WriteObjectRequest.GetChecksummedData (fakestorage.first_message w)
    = Some data ->
  pb.WriteObjectRequest.GetWriteObjectSpec (fakestorage.first_message w)
    = Some spec ->
  pb.WriteObjectSpec.Resource spec = None ->
  WriteObject w = (fakestorage.Panicked, fakestorage.received w).
Proof.
  intros Hdata Hspec Hres.
  destruct (WriteObject w) as [o w'] eqn:E. apply WriteObject_inv in E.
  destruct E; simplify_eq; done.
Qed.


(** X3. WriteObject returns nil only after it committed one object and
    handed one response to SendAndClose, and SendAndClose answered nil. *)
Theorem WriteObject_success_means_committed_and_sent (w : fakestorage.World σ) :
  (WriteObject w).1 = fakestorage.Returned None ->
  exists reqObj resp,
    fakestorage.backend_calls (WriteObject w).2 =
      fakestorage.backend_calls w ++
        [{| backend.call := backend.CreateObjectCall reqObj;
            backend.returned := None |}] /\
    fakestorage.stream_out (WriteObject w).2 = fakestorage.stream_out w ++ [resp] /\
    fakestorage.send_result w = None.
Proof.
  intros Hok.
  destruct (WriteObject w) as [o w'] eqn:E. apply WriteObject_inv in E.
  cbn in Hok. destruct E; simplify_eq. by eexists _, _.
Qed.

(** X4. Once a response is handed to SendAndClose, what SendAndClose
    answers is what WriteObject returns: a failed send is reported to the
    caller although the object is committed. *)
Theorem WriteObject_returns_what_send_answers (w : fakestorage.World σ) resp :
  fakestorage.stream_out (WriteObject w).2 = fakestorage.stream_out w ++ [resp] ->
  (WriteObject w).1 = fakestorage.Returned (fakestorage.send_result w) /\
  exists reqObj,
    fakestorage.backend_calls (WriteObject w).2 =
      fakestorage.backend_calls w ++
        [{| backend.call := backend.CreateObjectCall reqObj;
            backend.returned := None |}].
Proof.
  intros Hout.
  destruct (WriteObject w) as [o w'] eqn:E. apply WriteObject_inv in E.
  destruct E; cbn in Hout;
    try (apply (f_equal length) in Hout; rewrite length_app in Hout;
         simpl in Hout; lia).
  split; [done|]. by eexists.
Qed.

(** X5. A committed object whose Crc32c is a non-empty run of decimal
    digits denoting a value below 2^32 is acknowledged, and the response
    carries that value as its Crc32C. *)
Theorem WriteObject_accepts_decimal_crc32c (w : fakestorage.World σ) data spec
    Resource reqObj created st :
  pb.WriteObjectRequest.GetChecksummedData (fakestorage.first_message w)
    = Some data ->
  pb.WriteObjectRequest.GetWriteObjectSpec (fakestorage.first_message w)
    = Some spec ->
  pb.WriteObjectSpec.Resource spec = Some Resource ->
  fakestorage.attach_crc32c
    (reqObj_of Resource (pb.WriteObjectSpec.PredefinedAcl spec)
       (pb.ChecksummedData.Content data))
    (pb.ChecksummedData.Crc32C data) = Some reqObj ->
  backend.CreateObject reqObj (fakestorage.backend_state w)
    = ((created, None), st) ->
  backend.Object.Crc32c created <> EmptyString ->
  all_digits (backend.Object.Crc32c created) = true ->
  decimal_value (backend.Object.Crc32c created) < 2 ^ 32 ->
  WriteObject w =
  (fakestorage.Returned (fakestorage.send_result w),
   fakestorage.sent
     (fakestorage.called (fakestorage.received w)
        (backend.CreateObjectCall reqObj) None st)
     (acknowledgement created (decimal_value (backend.Object.Crc32c created)))).
Proof.
  intros Hdata Hspec Hres Hreq Hb Hne Hdigits Hsmall.
  assert (Hparse : strconv.ParseUint (backend.Object.Crc32c created) 10 32
                   = (decimal_value (backend.Object.Crc32c created), None))
    by (by apply ParseUint_ok_iff).
  rewrite (WriteObject_acknowledges getObjectACL quoteFromRuneSelf w data spec
             Resource reqObj created st _ Hdata Hspec Hres Hreq Hb Hparse).
  do 3 f_equal. unfold fakestorage.uint32. apply Z.mod_small.
  assert (0 <= decimal_value (backend.Object.Crc32c created))
    by (by apply decimal_from_ge).
  lia.
Qed.

(** X6. A committed object whose Crc32c is anything else (empty, with a
    byte that is no decimal digit, or denoting 2^32 or more) is not
    acknowledged: after the commit WriteObject returns the NumError of
    ParseUint on that text, a range error when the text is all digits,
    and sends nothing. *)
Theorem WriteObject_rejects_other_crc32c (w : fakestorage.World σ) data spec
    Resource reqObj created st :
  pb.WriteObjectRequest.GetChecksummedData (fakestorage.first_message w)
    = Some data ->
  pb.WriteObjectRequest.GetWriteObjectSpec (fakestorage.first_message w)
    = Some spec ->
  pb.WriteObjectSpec.Resource spec = Some Resource ->
  fakestorage.attach_crc32c
    (reqObj_of Resource (pb.WriteObjectSpec.PredefinedAcl spec)
       (pb.ChecksummedData.Content data))
    (pb.ChecksummedData.Crc32C data) = Some reqObj ->
  backend.CreateObject reqObj (fakestorage.backend_state w)
    = ((created, None), st) ->
  ~ (backend.Object.Crc32c created <> EmptyString /\
     all_digits (backend.Object.Crc32c created) = true /\
     decimal_value (backend.Object.Crc32c created) < 2 ^ 32) ->
  exists kind,
    WriteObject w =
    (fakestorage.Returned
       (Some (NumError "ParseUint" (backend.Object.Crc32c created) kind)),
     fakestorage.called (fakestorage.received w)
       (backend.CreateObjectCall reqObj) None st) /\
    (backend.Object.Crc32c created <> EmptyString ->
     all_digits (backend.Object.Crc32c created) = true -> kind = ErrRange).
Proof.
  intros Hdata Hspec Hres Hreq Hb Hbad.
  destruct (strconv.ParseUint (backend.Object.Crc32c created) 10 32)
    as [v [err|]] eqn:Hparse.
  - assert (Hkind : exists kind,
              err = NumError "ParseUint" (backend.Object.Crc32c created) kind).
    { unfold strconv.ParseUint in Hparse.
      destruct (decide (backend.Object.Crc32c created = EmptyString));
        [injection Hparse as <- <-; eauto|].
      destruct (strconv.parse_loop _ _ _ _ _);
        [done|injection Hparse as <- <-; eauto]. }
    destruct Hkind as [kind ->]. exists kind. split.
    + destruct (WriteObject w) as [o w'] eqn:E. apply WriteObject_inv in E.
      destruct E; simplify_eq; congruence.
    + intros Hne Hdigits.
      destruct (Z.lt_ge_cases (decimal_value (backend.Object.Crc32c created))
                  (2 ^ 32)) as [Hsmall|Hbig]; [by destruct Hbad|].
      rewrite (ParseUint_out_of_range _ Hne Hdigits Hbig) in Hparse.
      by injection Hparse as _ <-.
  - apply ParseUint_ok_iff in Hparse as (? & ? & <- & ?). by destruct Hbad.
Qed.

End UploadMore.

(** ** The response of an upload *)

Lemma respAcl_fields (rule : storage.ACLRule.t) :
  pb.ObjectAccessControl.Role (fakestorage.respAcl rule)
    = storage.ACLRule.Role rule /\
  pb.ObjectAccessControl.Id (fakestorage.respAcl rule)
    = storage.ACLRule.EntityID rule /\
  pb.ObjectAccessControl.Entity (fakestorage.respAcl rule)
    = storage.ACLRule.Entity rule /\
  pb.ObjectAccessControl.Email (fakestorage.respAcl rule)
    = storage.ACLRule.Email rule /\
  pb.ObjectAccessControl.Domain (fakestorage.respAcl rule)
    = storage.ACLRule.Domain rule /\
  pb.ObjectAccessControl.ProjectTeam (fakestorage.respAcl rule)
    = (fun team =>
         {| pb.ProjectTeam.ProjectNumber := storage.ProjectTeam.ProjectNumber team;
            pb.ProjectTeam.Team := storage.ProjectTeam.Team team |})
      <$> storage.ACLRule.ProjectTeam rule.
Proof.
  unfold fakestorage.respAcl.
  by destruct (storage.ACLRule.ProjectTeam rule).
Qed.

Section Response.
Context {σ : Type} `{!backend.Storage σ}.
Variable getObjectACL : string -> list storage.ACLRule.t.
Variable quoteFromRuneSelf : string -> string.

#[local] Abbreviation WriteObject :=
  (fakestorage.WriteObject getObjectACL quoteFromRuneSelf).
#[local] Abbreviation reqObj_of :=
  (fakestorage.reqObj_of getObjectACL quoteFromRuneSelf).

(** What a response handed to [SendAndClose] is made of. *)
Lemma WriteObject_sent_inv (w : fakestorage.World σ) resp :
  fakestorage.stream_out (WriteObject w).2 = fakestorage.stream_out w ++ [resp] ->
  exists reqObj created st crc,
    backend.CreateObject reqObj (fakestorage.backend_state w)
      = ((created, None), st) /\
    backend.Object.Crc32c created <> EmptyString /\
    all_digits (backend.Object.Crc32c created) = true /\
    crc = decimal_value (backend.Object.Crc32c created) /\
    0 <= crc < 2 ^ 32 /\
    resp = acknowledgement created crc.
Proof.
  intros Hout.
  destruct (WriteObject w) as [o w'] eqn:E. apply WriteObject_inv in E.
  destruct E as [| | | | |
                 |data spec Resource reqObj created v st _ _ _ _ Hb Hparse];
    cbn in Hout;
    try (apply (f_equal length) in Hout; rewrite length_app in Hout;
         simpl in Hout; lia).
  apply app_inj_tail in Hout as [_ <-].
  apply ParseUint_ok_iff in Hparse as (Hne & Hdigits & <- & Hsmall).
  assert (0 <= decimal_value (backend.Object.Crc32c created))
    by (by apply decimal_from_ge).
  exists reqObj, created, st, (decimal_value (backend.Object.Crc32c created)).
  split_and!; try done.
  unfold fakestorage.uint32. by rewrite Z.mod_small by lia.
Qed.

(** X7. The object in a response of WriteObject mirrors the object the
    backend committed: name, bucket, generation, content type, content
    encoding, metadata and the three timestamps are the committed ones;
    the checksums are there, the Crc32C being the number the committed
    decimal text denotes, a uint32, and the Md5Hash the bytes of the
    committed hash text as it is (not decoded). *)
Theorem WriteObject_response_mirrors_committed (w : fakestorage.World σ) resp :
  fakestorage.stream_out (WriteObject w).2 = fakestorage.stream_out w ++ [resp] ->
  exists reqObj created st r crc,
    backend.CreateObject reqObj (fakestorage.backend_state w)
      = ((created, None), st) /\
    resource_in resp = Some r /\
    pb.Object.Name r = backend.Object.Name created /\
    pb.Object.Bucket r = backend.Object.BucketName created /\
    pb.Object.Generation r = backend.Object.Generation created /\
    pb.Object.ContentType r = backend.Object.ContentType created /\
    pb.Object.ContentEncoding r = backend.Object.ContentEncoding created /\
    pb.Object.Metadata r = backend.Object.Metadata created /\
    pb.Object.CreateTime r = timestamppb.New (backend.Object.Created created) /\
    pb.Object.DeleteTime r = timestamppb.New (backend.Object.Deleted created) /\
    pb.Object.UpdateTime r = timestamppb.New (backend.Object.Updated created) /\
    pb.Object.Checksums r =
      Some {| pb.ObjectChecksums.Crc32C := Some crc;
              pb.ObjectChecksums.Md5Hash :=
                list_byte_of_string (backend.Object.Md5Hash created) |} /\
    crc = decimal_value (backend.Object.Crc32c created) /\
    0 <= crc < 2 ^ 32.
Proof.
  intros Hout.
  destruct (WriteObject_sent_inv w resp Hout)
    as (reqObj & created & st & crc & Hb & _ & _ & Hcrc & Hrange & ->).
  exists reqObj, created, st. eexists _, crc.
  split_and!; try reflexivity; try done; lia.
Qed.

(** X8. The access-control list of the response has one entry per rule of
    the committed object, in the same order: role, id (the rule's entity
    id), entity, email and domain copied, and a project team exactly when
    the rule has one, with its number and team. *)
Theorem WriteObject_response_acl (w : fakestorage.World σ) resp :
  fakestorage.stream_out (WriteObject w).2 = fakestorage.stream_out w ++ [resp] ->
  exists reqObj created st r entries,
    backend.CreateObject reqObj (fakestorage.backend_state w)
      = ((created, None), st) /\
    resource_in resp = Some r /\
    pb.Object.Acl r = Slice entries /\
    length entries = length (backend.Object.ACL created) /\
    forall i rule, backend.Object.ACL created !! i = Some rule ->
      exists entry,
        entries !! i = Some (Some entry) /\
        pb.ObjectAccessControl.Role entry = storage.ACLRule.Role rule /\
        pb.ObjectAccessControl.Id entry = storage.ACLRule.EntityID rule /\
        pb.ObjectAccessControl.Entity entry = storage.ACLRule.Entity rule /\
        pb.ObjectAccessControl.Email entry = storage.ACLRule.Email rule /\
        pb.ObjectAccessControl.Domain entry = storage.ACLRule.Domain rule /\
        pb.ObjectAccessControl.ProjectTeam entry =
          (fun team =>
             {| pb.ProjectTeam.ProjectNumber :=
                  storage.ProjectTeam.ProjectNumber team;
                pb.ProjectTeam.Team := storage.ProjectTeam.Team team |})
          <$> storage.ACLRule.ProjectTeam rule.
Proof.
  intros Hout.
  destruct (WriteObject_sent_inv w resp Hout)
    as (reqObj & created & st & crc & Hb & _ & _ & _ & _ & ->).
  exists reqObj, created, st. eexists _, _. split; [exact Hb|].
  split; [reflexivity|]. split; [reflexivity|].
  split; [by rewrite length_map|].
  intros i rule Hi. exists (fakestorage.respAcl rule).
  split; [by rewrite list_lookup_fmap, Hi|]. apply respAcl_fields.
Qed.

(** X9. Against a backend that commits an object as it was given, an
    upload whose frame carries the checksum X is acknowledged with X: the
    response has Crc32C X, the size of the payload, the name, bucket and
    content type of the spec's resource and, as Md5Hash, the bytes of the
    base-64 text of the payload's digest. *)
Theorem WriteObject_checksum_comes_back (w : fakestorage.World σ) data spec
    Resource X :
  pb.WriteObjectRequest.GetChecksummedData (fakestorage.first_message w)
    = Some data ->
  pb.WriteObjectRequest.GetWriteObjectSpec (fakestorage.first_message w)
    = Some spec ->
  pb.WriteObjectSpec.Resource spec = Some Resource ->
  pb.ChecksummedData.Crc32C data = Some X ->
  0 <= X < 2 ^ 32 ->
  (forall obj,
     (backend.CreateObject obj (fakestorage.backend_state w)).1 = (obj, None)) ->
  exists resp r,
    (WriteObject w).1 = fakestorage.Returned (fakestorage.send_result w) /\
    fakestorage.stream_out (WriteObject w).2 = fakestorage.stream_out w ++ [resp] /\
    resource_in resp = Some r /\
    pb.Object.Checksums r =
      Some {| pb.ObjectChecksums.Crc32C := Some X;
              pb.ObjectChecksums.Md5Hash :=
                list_byte_of_string
                  (checksum.EncodedMd5Hash (pb.ChecksummedData.Content data)) |} /\
    pb.Object.Size r = Z.of_nat (length (pb.ChecksummedData.Content data)) /\
    pb.Object.Name r = pb.Object.Name Resource /\
    pb.Object.Bucket r = pb.Object.Bucket Resource /\
    pb.Object.ContentType r = pb.Object.ContentType Resource.
Proof.
  intros Hdata Hspec Hres Hcrc HX Hecho.
  destruct (ParseUint_Sprint_uint32 X HX) as (text & Htext & Hparse).
  set (reqObj :=
         backend.Object.with_Crc32c
           (reqObj_of Resource (pb.WriteObjectSpec.PredefinedAcl spec)
              (pb.ChecksummedData.Content data)) text).
  assert (Hreq : fakestorage.attach_crc32c
                   (reqObj_of Resource (pb.WriteObjectSpec.PredefinedAcl spec)
                      (pb.ChecksummedData.Content data))
                   (pb.ChecksummedData.Crc32C data) = Some reqObj).
  { rewrite Hcrc. unfold fakestorage.attach_crc32c. by rewrite Htext. }
  specialize (Hecho reqObj).
  destruct (backend.CreateObject reqObj (fakestorage.backend_state w))
    as [[created err] st] eqn:Hb.
  cbn in Hecho. injection Hecho as -> ->.
  rewrite (WriteObject_acknowledges getObjectACL quoteFromRuneSelf w data spec
             Resource reqObj reqObj st X Hdata Hspec Hres Hreq Hb Hparse).
  eexists _, _. cbn. split_and!; try reflexivity.
  unfold fakestorage.uint32. by rewrite Z.mod_small by lia.
Qed.

End Response.

(** ** More on the listing handlers and on bucket creation *)

Section ListingMore.
Context {σ : Type} `{!backend.Storage σ}.

(** X10. ListBuckets answers with the backend's buckets in the backend's
    order, as many as the backend returned, none of them nil, each
    carrying the bucket's name; it makes the one backend call. *)
Theorem ListBuckets_projects (w : fakestorage.World σ) req buckets st :
  backend.ListBuckets (fakestorage.backend_state w) = ((buckets, None), st) ->
  exists entries,
    fakestorage.ListBuckets req w =
    (fakestorage.Returned
       (Some {| pb.ListBucketsResponse.Buckets := Slice entries |}, None),
     fakestorage.called w backend.ListBucketsCall None st) /\
    length entries = length buckets /\
    forall i bucket, buckets !! i = Some bucket ->
      entries !! i =
      Some (Some {| pb.Bucket.Name := backend.Bucket.Name bucket |}).
Proof.
  intros Hb. eexists. split; [by apply ListBuckets_ok|].
  split; [by rewrite length_map|].
  intros i bucket Hi. by rewrite list_lookup_fmap, Hi.
Qed.


(** X12. CreateBucketWithOpts passes the name and the versioning flag of
    its options to the backend's CreateBucket, once; it returns when the
    backend reports no error and panics when it reports one, the backend
    left as that call left it. *)
Theorem CreateBucketWithOpts_run (w : fakestorage.World σ) opts err st :
  backend.CreateBucket (fakestorage.Name opts)
    (fakestorage.VersioningEnabled opts) (fakestorage.backend_state w)
    = (err, st) ->
  fakestorage.CreateBucketWithOpts opts w =
  (match err with
   | Some _ => fakestorage.Panicked
   | None => fakestorage.Returned tt
   end,
   fakestorage.called w
     (backend.CreateBucketCall (fakestorage.Name opts)
        (fakestorage.VersioningEnabled opts))
     err st).
Proof.
  intros Hb. unfold fakestorage.CreateBucketWithOpts, fakestorage.bind,
    fakestorage.call_backend. rewrite Hb. by destruct err.
Qed.

End ListingMore.

(** ** Construction of the server *)

(** An event is not in an explicit trace of other events. *)
Ltac not_in_trace :=
  let Hin := fresh "Hin" in
  intros Hin; cbn in Hin;
  repeat (apply elem_of_cons in Hin as [Hin|Hin]; [discriminate Hin|]);
  by apply elem_of_nil in Hin.

Lemma append_not_empty_r (s1 s2 : string) :
  s2 <> EmptyString -> s1 +:+ s2 <> EmptyString.
Proof.
  intros Hne. destruct s1 as [|c s1]; [done|]. by rewrite append_cons.
Qed.

Lemma Sprintf_d_total (x : Z) :
  - 2 ^ 64 < x < 2 ^ 64 -> is_Some (construction.Sprintf_d x).
Proof.
  intros Hx. unfold construction.Sprintf_d.
  destruct (Z.ltb_spec x 0).
  - destruct (Sprint_uint32_total (- x)) as [digits Hd]; [lia|].
    unfold fmt.Sprint_uint32 in Hd. rewrite Hd. eauto.
  - apply (Sprint_uint32_total x). lia.
Qed.

Lemma Sprintf_host_port_not_empty (host : string) (port : Z) (addr : string) :
  construction.Sprintf_host_port host port = Some addr -> addr <> EmptyString.
Proof.
  unfold construction.Sprintf_host_port.
  destruct (construction.Sprintf_d port); [|done]. intros [= <-].
  apply append_not_empty_r. by rewrite append_cons.
Qed.

Section Construction.
Context {σ L : Type}.
Variable toBackendObjects : list backend.Object.t -> list backend.Object.t.
Variable NewStorageFS :
  list backend.Object.t -> string -> option σ * option error.
Variable NewStorageMemory : list backend.Object.t -> σ.
Variable Listen : string -> string -> option L * option error.
Variable Serve : option L -> option (option error).

#[local] Abbreviation NewStorageServer :=
  (construction.NewStorageServer toBackendObjects NewStorageFS
     NewStorageMemory Listen Serve).



(** X15. A server that NewStorageServer returns comes with a nil error,
    after Serve has returned (whatever Serve returned); its url is the
    text host:port it listened on and its URL() is never empty: the
    external URL of the options when that is set, else host:port. *)
Theorem NewStorageServer_returned_server
    (options : construction.Options) started err trace :
  NewStorageServer options = (construction.Returned (Some started) err, trace) ->
  exists addr lis served before,
    err = None /\
    construction.Sprintf_host_port (construction.Host options)
      (construction.Port options) = Some addr /\
    Listen "tcp" addr = (lis, None) /\
    Serve lis = Some served /\
    trace = before ++ [construction.ListenCall "tcp" addr;
                       construction.NewServerCall;
                       construction.RegisterStorageServerCall
                         (construction.handle started);
                       construction.ServeCall] /\
    fakestorage.url (construction.handle started) = addr /\
    fakestorage.externalURL (construction.handle started)
      = construction.ExternalURL options /\
    fakestorage.URL (construction.handle started) <> EmptyString /\
    fakestorage.URL (construction.handle started) =
      (if decide (construction.ExternalURL options = EmptyString) then addr
       else construction.ExternalURL options).
Proof.
  unfold construction.NewStorageServer.
  set (phase := if negb (construction.StorageRoot options =? "")%string
                then _ else _).
  destruct phase as [[backendStorage [e|]] before]; [done|].
  destruct (construction.Sprintf_host_port _ _) as [addr|] eqn:Haddr; [|done].
  destruct (Listen "tcp" addr) as [lis [e|]] eqn:Hlisten; [done|].
  destruct (Serve lis) as [served|] eqn:Hserve; [|done].
  intros [= <- <- <-]. exists addr, lis, served, before.
  pose proof (Sprintf_host_port_not_empty _ _ _ Haddr) as Hne.
  pose proof (URL_precedence
                {| fakestorage.url := addr;
                   fakestorage.externalURL := construction.ExternalURL options |})
    as [Hext Hurl].
  cbn in *. split_and!; try done.
  - by rewrite <- app_assoc.
  - destruct (decide (construction.ExternalURL options = EmptyString)) as [Heq|Hneq].
    + by rewrite Hurl.
    + by rewrite Hext.
  - destruct (decide (construction.ExternalURL options = EmptyString)) as [Heq|Hneq].
    + by apply Hurl.
    + by apply Hext.
Qed.

(** X16. Without a storage root NewStorageServer builds the in-memory
    backend from the converted initial objects, never calls
    NewStorageFS, and hands back that backend with the server it
    returns. *)
Theorem NewStorageServer_memory_backend (options : construction.Options) :
  construction.StorageRoot options = EmptyString ->
  exists rest,
    (NewStorageServer options).2 =
      construction.NewStorageMemoryCall
        (toBackendObjects (construction.InitialObjects options)) :: rest /\
    (forall objects rootDir,
       construction.NewStorageFSCall objects rootDir ∉ (NewStorageServer options).2) /\
    forall started err,
      (NewStorageServer options).1 = construction.Returned (Some started) err ->
      construction.backend_of started =
        Some (NewStorageMemory
                (toBackendObjects (construction.InitialObjects options))).
Proof.
  intros Hroot. unfold construction.NewStorageServer. rewrite Hroot. cbn.
  destruct (construction.Sprintf_host_port _ _) as [addr|].
  2:{ eexists. split; [done|]. split; [|done]. intros ??. not_in_trace. }
  destruct (Listen "tcp" addr) as [lis [e|]].
  { eexists. split; [done|]. split; [|done]. intros ??. not_in_trace. }
  destruct (Serve lis) as [served|].
  - eexists. split; [done|]. split.
    + intros ??. not_in_trace.
    + by intros ?? [= <- _].
  - eexists. split; [done|]. split; [|done]. intros ??. not_in_trace.
Qed.

End Construction.

(** ** Runs of the further properties *)

Lemma WriteObject_nil_resource_panics_witness :
  pb.WriteObjectRequest.GetChecksummedData
    (fakestorage.first_message (spy.world spy.empty [more.nil_resource]))
    = Some (spy.checksummed "hello" None) /\
  pb.WriteObjectRequest.GetWriteObjectSpec
    (fakestorage.first_message (spy.world spy.empty [more.nil_resource]))
    = Some more.spec_without_resource /\
  pb.WriteObjectSpec.Resource more.spec_without_resource = None /\
  fakestorage.WriteObject spy.getObjectACL (fun s => s)
    (spy.world spy.empty [more.nil_resource]) =
  (fakestorage.Panicked,
   fakestorage.received (spy.world spy.empty [more.nil_resource])).
Proof.
  split_and!; [reflexivity..|].
  exact (WriteObject_nil_resource_panics spy.getObjectACL (fun s => s)
           (spy.world spy.empty [more.nil_resource])
           (spy.checksummed "hello" None) more.spec_without_resource
           eq_refl eq_refl eq_refl).
Defined.


Lemma WriteObject_success_means_committed_and_sent_witness :
  (fakestorage.WriteObject spy.getObjectACL (fun s => s)
     (spy.world spy.empty [spy.hello (Some 7)])).1 = fakestorage.Returned None /\
  exists reqObj resp,
    fakestorage.backend_calls
      (fakestorage.WriteObject spy.getObjectACL (fun s => s)
         (spy.world spy.empty [spy.hello (Some 7)])).2 =
      fakestorage.backend_calls (spy.world spy.empty [spy.hello (Some 7)]) ++
        [{| backend.call := backend.CreateObjectCall reqObj;
            backend.returned := None |}] /\
    fakestorage.stream_out
      (fakestorage.WriteObject spy.getObjectACL (fun s => s)
         (spy.world spy.empty [spy.hello (Some 7)])).2
      = fakestorage.stream_out (spy.world spy.empty [spy.hello (Some 7)])
        ++ [resp] /\
    fakestorage.send_result (spy.world spy.empty [spy.hello (Some 7)]) = None.
Proof.
  split; [vm_compute; reflexivity|].
  apply (WriteObject_success_means_committed_and_sent spy.getObjectACL
           (fun s => s) (spy.world spy.empty [spy.hello (Some 7)])).
  vm_compute; reflexivity.
Defined.

(** The send fails: the error of SendAndClose comes back, the object
    stays committed. *)
Lemma WriteObject_returns_what_send_answers_witness :
  fakestorage.stream_out
    (fakestorage.WriteObject spy.getObjectACL (fun s => s)
       (tamper.world (tamper.returning "7") [spy.hello None]
          (Some spy.unavailable))).2
    = fakestorage.stream_out
        (tamper.world (tamper.returning "7") [spy.hello None]
           (Some spy.unavailable))
      ++ [acknowledgement (spy.committed "hello" "7") 7] /\
  (fakestorage.WriteObject spy.getObjectACL (fun s => s)
     (tamper.world (tamper.returning "7") [spy.hello None]
        (Some spy.unavailable))).1
    = fakestorage.Returned
        (fakestorage.send_result
           (tamper.world (tamper.returning "7") [spy.hello None]
              (Some spy.unavailable))) /\
  exists reqObj,
    fakestorage.backend_calls
      (fakestorage.WriteObject spy.getObjectACL (fun s => s)
         (tamper.world (tamper.returning "7") [spy.hello None]
            (Some spy.unavailable))).2 =
      fakestorage.backend_calls
        (tamper.world (tamper.returning "7") [spy.hello None]
           (Some spy.unavailable)) ++
        [{| backend.call := backend.CreateObjectCall reqObj;
            backend.returned := None |}].
Proof.
  split; [vm_compute; reflexivity|].
  apply (WriteObject_returns_what_send_answers spy.getObjectACL (fun s => s)
           (tamper.world (tamper.returning "7") [spy.hello None]
              (Some spy.unavailable))
           (acknowledgement (spy.committed "hello" "7") 7)).
  vm_compute; reflexivity.
Defined.

Lemma WriteObject_accepts_decimal_crc32c_witness :
  backend.Object.Crc32c (backend.Object.with_Crc32c more.hello_request "0042")
    <> EmptyString /\
  all_digits
    (backend.Object.Crc32c (backend.Object.with_Crc32c more.hello_request "0042"))
    = true /\
  decimal_value
    (backend.Object.Crc32c (backend.Object.with_Crc32c more.hello_request "0042"))
    < 2 ^ 32 /\
  fakestorage.WriteObject spy.getObjectACL (fun s => s)
    (tamper.world (tamper.returning "0042") [spy.hello None] None) =
  (fakestorage.Returned
     (fakestorage.send_result
        (tamper.world (tamper.returning "0042") [spy.hello None] None)),
   fakestorage.sent
     (fakestorage.called
        (fakestorage.received
           (tamper.world (tamper.returning "0042") [spy.hello None] None))
        (backend.CreateObjectCall more.hello_request) None
        (tamper.around (tamper.returning "0042")
           (spy.store spy.empty more.hello_request)))
     (acknowledgement (backend.Object.with_Crc32c more.hello_request "0042")
        (decimal_value
           (backend.Object.Crc32c
              (backend.Object.with_Crc32c more.hello_request "0042"))))).
Proof.
  assert (Hne : backend.Object.Crc32c
                  (backend.Object.with_Crc32c more.hello_request "0042")
                <> EmptyString) by discriminate.
  assert (Hsmall : decimal_value
                     (backend.Object.Crc32c
                        (backend.Object.with_Crc32c more.hello_request "0042"))
                   < 2 ^ 32) by (vm_compute; reflexivity).
  split_and!; [exact Hne|reflexivity|exact Hsmall|].
  exact (WriteObject_accepts_decimal_crc32c spy.getObjectACL (fun s => s)
           (tamper.world (tamper.returning "0042") [spy.hello None] None)
           (spy.checksummed "hello" None) (spy.write_spec "b" "o")
           (spy.resource "b" "o") more.hello_request
           (backend.Object.with_Crc32c more.hello_request "0042")
           (tamper.around (tamper.returning "0042")
              (spy.store spy.empty more.hello_request))
           eq_refl eq_refl eq_refl eq_refl eq_refl Hne eq_refl Hsmall).
Defined.

Lemma WriteObject_rejects_other_crc32c_witness :
  ~ (backend.Object.Crc32c
       (backend.Object.with_Crc32c more.hello_request "4294967296")
     <> EmptyString /\
     all_digits
       (backend.Object.Crc32c
          (backend.Object.with_Crc32c more.hello_request "4294967296")) = true /\
     decimal_value
       (backend.Object.Crc32c
          (backend.Object.with_Crc32c more.hello_request "4294967296"))
     < 2 ^ 32) /\
  exists kind,
    fakestorage.WriteObject spy.getObjectACL (fun s => s)
      (tamper.world (tamper.returning "4294967296") [spy.hello None] None) =
    (fakestorage.Returned
       (Some (NumError "ParseUint"
                (backend.Object.Crc32c
                   (backend.Object.with_Crc32c more.hello_request "4294967296"))
                kind)),
     fakestorage.called
       (fakestorage.received
          (tamper.world (tamper.returning "4294967296") [spy.hello None] None))
       (backend.CreateObjectCall more.hello_request) None
       (tamper.around (tamper.returning "4294967296")
          (spy.store spy.empty more.hello_request))) /\
    (backend.Object.Crc32c
       (backend.Object.with_Crc32c more.hello_request "4294967296")
     <> EmptyString ->
     all_digits
       (backend.Object.Crc32c
          (backend.Object.with_Crc32c more.hello_request "4294967296")) = true ->
     kind = ErrRange).
Proof.
  assert (Hbad : ~ (backend.Object.Crc32c
                      (backend.Object.with_Crc32c more.hello_request "4294967296")
                    <> EmptyString /\
                    all_digits
                      (backend.Object.Crc32c
                         (backend.Object.with_Crc32c more.hello_request
                            "4294967296")) = true /\
                    decimal_value
                      (backend.Object.Crc32c
                         (backend.Object.with_Crc32c more.hello_request
                            "4294967296"))
                    < 2 ^ 32)).
  { intros (_ & _ & Hsmall). vm_compute in Hsmall. discriminate Hsmall. }
  split; [exact Hbad|].
  exact (WriteObject_rejects_other_crc32c spy.getObjectACL (fun s => s)
           (tamper.world (tamper.returning "4294967296") [spy.hello None] None)
           (spy.checksummed "hello" None) (spy.write_spec "b" "o")
           (spy.resource "b" "o") more.hello_request
           (backend.Object.with_Crc32c more.hello_request "4294967296")
           (tamper.around (tamper.returning "4294967296")
              (spy.store spy.empty more.hello_request))
           eq_refl eq_refl eq_refl eq_refl eq_refl Hbad).
Defined.

Lemma WriteObject_response_mirrors_committed_witness :
  fakestorage.stream_out
    (fakestorage.WriteObject spy.getObjectACL (fun s => s)
       (spy.world spy.empty [spy.hello (Some 7)])).2
    = fakestorage.stream_out (spy.world spy.empty [spy.hello (Some 7)])
      ++ [acknowledgement (spy.committed "hello" "7") 7] /\
  exists reqObj created st r crc,
    backend.CreateObject reqObj
      (fakestorage.backend_state (spy.world spy.empty [spy.hello (Some 7)]))
      = ((created, None), st) /\
    resource_in (acknowledgement (spy.committed "hello" "7") 7) = Some r /\
    pb.Object.Name r = backend.Object.Name created /\
    pb.Object.Bucket r = backend.Object.BucketName created /\
    pb.Object.Generation r = backend.Object.Generation created /\
    pb.Object.ContentType r = backend.Object.ContentType created /\
    pb.Object.ContentEncoding r = backend.Object.ContentEncoding created /\
    pb.Object.Metadata r = backend.Object.Metadata created /\
    pb.Object.CreateTime r = timestamppb.New (backend.Object.Created created) /\
    pb.Object.DeleteTime r = timestamppb.New (backend.Object.Deleted created) /\
    pb.Object.UpdateTime r = timestamppb.New (backend.Object.Updated created) /\
    pb.Object.Checksums r =
      Some {| pb.ObjectChecksums.Crc32C := Some crc;
              pb.ObjectChecksums.Md5Hash :=
                list_byte_of_string (backend.Object.Md5Hash created) |} /\
    crc = decimal_value (backend.Object.Crc32c created) /\
    0 <= crc < 2 ^ 32.
Proof.
  split; [vm_compute; reflexivity|].
  apply (WriteObject_response_mirrors_committed spy.getObjectACL (fun s => s)
           (spy.world spy.empty [spy.hello (Some 7)])
           (acknowledgement (spy.committed "hello" "7") 7)).
  vm_compute; reflexivity.
Defined.

Lemma WriteObject_response_acl_witness :
  fakestorage.stream_out
    (fakestorage.WriteObject spy.getObjectACL (fun s => s)
       (spy.world spy.empty [spy.hello (Some 7)])).2
    = fakestorage.stream_out (spy.world spy.empty [spy.hello (Some 7)])
      ++ [acknowledgement (spy.committed "hello" "7") 7] /\
  exists reqObj created st r entries,
    backend.CreateObject reqObj
      (fakestorage.backend_state (spy.world spy.empty [spy.hello (Some 7)]))
      = ((created, None), st) /\
    resource_in (acknowledgement (spy.committed "hello" "7") 7) = Some r /\
    pb.Object.Acl r = Slice entries /\
    length entries = length (backend.Object.ACL created) /\
    forall i rule, backend.Object.ACL created !! i = Some rule ->
      exists entry,
        entries !! i = Some (Some entry) /\
        pb.ObjectAccessControl.Role entry = storage.ACLRule.Role rule /\
        pb.ObjectAccessControl.Id entry = storage.ACLRule.EntityID rule /\
        pb.ObjectAccessControl.Entity entry = storage.ACLRule.Entity rule /\
        pb.ObjectAccessControl.Email entry = storage.ACLRule.Email rule /\
        pb.ObjectAccessControl.Domain entry = storage.ACLRule.Domain rule /\
        pb.ObjectAccessControl.ProjectTeam entry =
          (fun team =>
             {| pb.ProjectTeam.ProjectNumber :=
                  storage.ProjectTeam.ProjectNumber team;
                pb.ProjectTeam.Team := storage.ProjectTeam.Team team |})
          <$> storage.ACLRule.ProjectTeam rule.
Proof.
  split; [vm_compute; reflexivity|].
  apply (WriteObject_response_acl spy.getObjectACL (fun s => s)
           (spy.world spy.empty [spy.hello (Some 7)])
           (acknowledgement (spy.committed "hello" "7") 7)).
  vm_compute; reflexivity.
Defined.

Lemma WriteObject_checksum_comes_back_witness :
  0 <= 4294967295 < 2 ^ 32 /\
  (forall obj, (backend.CreateObject obj
                  (fakestorage.backend_state
                     (spy.world spy.empty [spy.hello (Some 4294967295)]))).1
               = (obj, None)) /\
  exists resp r,
    (fakestorage.WriteObject spy.getObjectACL (fun s => s)
       (spy.world spy.empty [spy.hello (Some 4294967295)])).1
      = fakestorage.Returned
          (fakestorage.send_result
             (spy.world spy.empty [spy.hello (Some 4294967295)])) /\
    fakestorage.stream_out
      (fakestorage.WriteObject spy.getObjectACL (fun s => s)
         (spy.world spy.empty [spy.hello (Some 4294967295)])).2
      = fakestorage.stream_out
          (spy.world spy.empty [spy.hello (Some 4294967295)]) ++ [resp] /\
    resource_in resp = Some r /\
    pb.Object.Checksums r =
      Some {| pb.ObjectChecksums.Crc32C := Some 4294967295;
              pb.ObjectChecksums.Md5Hash :=
                list_byte_of_string
                  (checksum.EncodedMd5Hash
                     (pb.ChecksummedData.Content
                        (spy.checksummed "hello" (Some 4294967295)))) |} /\
    pb.Object.Size r =
      Z.of_nat (length (pb.ChecksummedData.Content
                          (spy.checksummed "hello" (Some 4294967295)))) /\
    pb.Object.Name r = pb.Object.Name (spy.resource "b" "o") /\
    pb.Object.Bucket r = pb.Object.Bucket (spy.resource "b" "o") /\
    pb.Object.ContentType r = pb.Object.ContentType (spy.resource "b" "o").
Proof.
  assert (Hrange : 0 <= 4294967295 < 2 ^ 32) by lia.
  assert (Hecho : forall obj,
            (backend.CreateObject obj
               (fakestorage.backend_state
                  (spy.world spy.empty [spy.hello (Some 4294967295)]))).1
            = (obj, None)) by (intros obj; reflexivity).
  split_and!; [lia..|exact Hecho|].
  exact (WriteObject_checksum_comes_back spy.getObjectACL (fun s => s)
           (spy.world spy.empty [spy.hello (Some 4294967295)])
           (spy.checksummed "hello" (Some 4294967295)) (spy.write_spec "b" "o")
           (spy.resource "b" "o") 4294967295
           eq_refl eq_refl eq_refl eq_refl Hrange Hecho).
Defined.

Section RequestChecksum.
Context {σ : Type} `{!backend.Storage σ}.
Variable getObjectACL : string -> list storage.ACLRule.t.
Variable quoteFromRuneSelf : string -> string.


End RequestChecksum.


Lemma ListBuckets_projects_witness :
  backend.ListBuckets
    (fakestorage.backend_state (spy.world more.two_buckets []))
    = ((spy.buckets more.two_buckets, None), more.two_buckets) /\
  exists entries,
    fakestorage.ListBuckets {| pb.ListBucketsRequest.Project := "p" |}
      (spy.world more.two_buckets []) =
    (fakestorage.Returned
       (Some {| pb.ListBucketsResponse.Buckets := Slice entries |}, None),
     fakestorage.called (spy.world more.two_buckets [])
       backend.ListBucketsCall None more.two_buckets) /\
    length entries = length (spy.buckets more.two_buckets) /\
    forall i bucket, spy.buckets more.two_buckets !! i = Some bucket ->
      entries !! i =
      Some (Some {| pb.Bucket.Name := backend.Bucket.Name bucket |}).
Proof.
  split; [reflexivity|].
  exact (@ListBuckets_projects spy.state spy.storage
           (spy.world more.two_buckets [])
           {| pb.ListBucketsRequest.Project := "p" |}
           (spy.buckets more.two_buckets) more.two_buckets eq_refl).
Defined.

Example two_buckets_listed :
  (fakestorage.ListBuckets {| pb.ListBucketsRequest.Project := "p" |}
     (spy.world more.two_buckets [])).1 =
  fakestorage.Returned
    (Some {| pb.ListBucketsResponse.Buckets :=
               Slice [Some {| pb.Bucket.Name := "photos" |};
                      Some {| pb.Bucket.Name := "logs" |}] |},
     None).
Proof. vm_compute. reflexivity. Qed.

Lemma CreateBucketWithOpts_run_witness :
  backend.CreateBucket "photos" true
    (fakestorage.backend_state
       (spy.world (spy.failing spy.unavailable) []))
    = (Some spy.unavailable, spy.failing spy.unavailable) /\
  fakestorage.CreateBucketWithOpts
    {| fakestorage.Name := "photos"; fakestorage.VersioningEnabled := true |}
    (spy.world (spy.failing spy.unavailable) []) =
  (fakestorage.Panicked,
   fakestorage.called (spy.world (spy.failing spy.unavailable) [])
     (backend.CreateBucketCall "photos" true) (Some spy.unavailable)
     (spy.failing spy.unavailable)).
Proof.
  split; [reflexivity|].
  exact (@CreateBucketWithOpts_run spy.state spy.storage
           (spy.world (spy.failing spy.unavailable) [])
           {| fakestorage.Name := "photos";
              fakestorage.VersioningEnabled := true |}
           (Some spy.unavailable) (spy.failing spy.unavailable) eq_refl).
Defined.

Example bucket_created_then_listed :
  (fakestorage.bind
     (fakestorage.CreateBucketWithOpts
        {| fakestorage.Name := "photos"; fakestorage.VersioningEnabled := true |})
     (fun _ => fakestorage.ListBuckets {| pb.ListBucketsRequest.Project := "p" |})
     (spy.world spy.empty [])).1 =
  fakestorage.Returned
    (Some {| pb.ListBucketsResponse.Buckets :=
               Slice [Some {| pb.Bucket.Name := "photos" |}] |},
     None).
Proof. vm_compute. reflexivity. Qed.


Lemma NewStorageServer_returned_server_witness :
  more.NewStorageServer (more.options "" "localhost" 8080 "") =
  (construction.Returned
     (Some {| construction.handle :=
                {| fakestorage.url := "localhost:8080";
                   fakestorage.externalURL := "" |};
              construction.backend_of :=
                Some (more.NewStorageMemory [spy.stored "img/a.png"]) |})
     None,
   [construction.NewStorageMemoryCall [spy.stored "img/a.png"];
    construction.ListenCall "tcp" "localhost:8080";
    construction.NewServerCall;
    construction.RegisterStorageServerCall
      {| fakestorage.url := "localhost:8080"; fakestorage.externalURL := "" |};
    construction.ServeCall]) /\
  fakestorage.URL
    {| fakestorage.url := "localhost:8080"; fakestorage.externalURL := "" |}
  = "localhost:8080"%string.
Proof.
  assert (Hrun : more.NewStorageServer (more.options "" "localhost" 8080 "") =
    (construction.Returned
       (Some {| construction.handle :=
                  {| fakestorage.url := "localhost:8080";
                     fakestorage.externalURL := "" |};
                construction.backend_of :=
                  Some (more.NewStorageMemory [spy.stored "img/a.png"]) |})
       None,
     [construction.NewStorageMemoryCall [spy.stored "img/a.png"];
      construction.ListenCall "tcp" "localhost:8080";
      construction.NewServerCall;
      construction.RegisterStorageServerCall
        {| fakestorage.url := "localhost:8080"; fakestorage.externalURL := "" |};
      construction.ServeCall])) by reflexivity.
  split; [exact Hrun|].
  destruct (NewStorageServer_returned_server more.toBackendObjects
              more.NewStorageFS more.NewStorageMemory more.Listen more.Serve
              (more.options "" "localhost" 8080 "") _ _ _ Hrun)
    as (addr & lis & served & before & _ & Haddr & _ & _ & _ & _ & _ & _ & Hurl).
  cbn [construction.handle] in Hurl. rewrite Hurl.
  vm_compute in Haddr. injection Haddr as <-. reflexivity.
Defined.

Lemma NewStorageServer_memory_backend_witness :
  construction.StorageRoot (more.options "" "localhost" 8080 "") = EmptyString /\
  exists rest,
    (construction.NewStorageServer more.toBackendObjects more.NewStorageFS
       more.NewStorageMemory more.Listen more.Serve
       (more.options "" "localhost" 8080 "")).2 =
      construction.NewStorageMemoryCall
        (more.toBackendObjects
           (construction.InitialObjects (more.options "" "localhost" 8080 "")))
      :: rest /\
    (forall objects rootDir,
       construction.NewStorageFSCall objects rootDir ∉
       (construction.NewStorageServer more.toBackendObjects more.NewStorageFS
          more.NewStorageMemory more.Listen more.Serve
          (more.options "" "localhost" 8080 "")).2) /\
    forall started err,
      (construction.NewStorageServer more.toBackendObjects more.NewStorageFS
         more.NewStorageMemory more.Listen more.Serve
         (more.options "" "localhost" 8080 "")).1
        = construction.Returned (Some started) err ->
      construction.backend_of started =
        Some (more.NewStorageMemory
                (more.toBackendObjects
                   (construction.InitialObjects
                      (more.options "" "localhost" 8080 "")))).
Proof.
  split; [reflexivity|].
  exact (NewStorageServer_memory_backend more.toBackendObjects
           more.NewStorageFS more.NewStorageMemory more.Listen more.Serve
           (more.options "" "localhost" 8080 "") eq_refl).
Defined.

(** With a storage root the failure of NewStorageFS comes back and
    nothing else happens; the external URL, when set, is the one
    advertised. *)
Example NewStorageServer_fs_failure :
  more.NewStorageServer (more.options "/data" "localhost" 8080 "") =
  (construction.Returned None (Some (OtherError "mkdir: permission denied")),
   [construction.NewStorageFSCall [spy.stored "img/a.png"] "/data"]).
Proof. reflexivity. Qed.

Example NewStorageServer_external_url :
  exists started trace,
    more.NewStorageServer
      (more.options "" "localhost" 8080 "https://storage.example.test") =
    (construction.Returned (Some started) None, trace) /\
    fakestorage.URL (construction.handle started)
      = "https://storage.example.test"%string.
Proof. vm_compute. eexists _, _. split; reflexivity. Qed.

Section Blocking.
Context {σ L : Type}.
Variable toBackendObjects : list backend.Object.t -> list backend.Object.t.
Variable NewStorageFS :
  list backend.Object.t -> string -> option σ * option error.
Variable NewStorageMemory : list backend.Object.t -> σ.
Variable Listen : string -> string -> option L * option error.
Variable Serve : option L -> option (option error).

(** X18. NewStorageServer serves before it returns: once the backend is
    built and the listener is open it registers the server and calls
    Serve, and while Serve does not return it returns nothing. *)
Theorem NewStorageServer_blocks_in_Serve
    (options : construction.Options) addr lis :
  (construction.StorageRoot options = EmptyString \/
   (NewStorageFS (toBackendObjects (construction.InitialObjects options))
      (construction.StorageRoot options)).2 = None) ->
  construction.Sprintf_host_port (construction.Host options)
    (construction.Port options) = Some addr ->
  Listen "tcp" addr = (lis, None) ->
  Serve lis = None ->
  exists before,
    construction.NewStorageServer toBackendObjects NewStorageFS
      NewStorageMemory Listen Serve options =
    (construction.Serving,
     before ++ [construction.ListenCall "tcp" addr;
                construction.NewServerCall;
                construction.RegisterStorageServerCall
                  {| fakestorage.url := addr;
                     fakestorage.externalURL :=
                       construction.ExternalURL options |};
                construction.ServeCall]) /\
    length before = 1%nat.
Proof.
  intros Hbackend Haddr Hlisten Hserve. unfold construction.NewStorageServer.
  destruct (String.eqb_spec (construction.StorageRoot options) "") as [Hroot|Hroot];
    cbn [negb].
  - rewrite Haddr, Hlisten, Hserve. eexists [_]. by rewrite <- app_assoc.
  - destruct Hbackend as [?|Hfs]; [done|].
    destruct (NewStorageFS _ _) as [backendStorage err]. cbn in Hfs. subst err.
    rewrite Haddr, Hlisten, Hserve. eexists [_]. by rewrite <- app_assoc.
Qed.

End Blocking.

Lemma NewStorageServer_blocks_in_Serve_witness :
  more.Listen "tcp" "localhost:8080" = (Some tt, None) /\
  more.ServeForever (Some tt) = None /\
  exists before,
    construction.NewStorageServer more.toBackendObjects more.NewStorageFS
      more.NewStorageMemory more.Listen more.ServeForever
      (more.options "" "localhost" 8080 "") =
    (construction.Serving,
     before ++ [construction.ListenCall "tcp" "localhost:8080";
                construction.NewServerCall;
                construction.RegisterStorageServerCall
                  {| fakestorage.url := "localhost:8080";
                     fakestorage.externalURL :=
                       construction.ExternalURL
                         (more.options "" "localhost" 8080 "") |};
                construction.ServeCall]) /\
    length before = 1%nat.
Proof.
  split_and!; [reflexivity..|].
  exact (NewStorageServer_blocks_in_Serve more.toBackendObjects
           more.NewStorageFS more.NewStorageMemory more.Listen
           more.ServeForever (more.options "" "localhost" 8080 "")
           "localhost:8080" (Some tt) (or_introl eq_refl) eq_refl eq_refl
           eq_refl).
Defined.
